(** * Admin dashboard: statistics service and Sectors page

    A shallow embedding of

    - [statsService] (the counting, recent-activity and 30-day evolution
      readers of the dashboard), and
    - the event handlers of the [Sectors] administration page,

    together with the properties stated about them.  JavaScript values are
    modelled by small inductive types, [async] functions by a state and
    exception monad over the observable effects (console, notifications,
    React state), and the histogram object by a finite map. *)

From Stdlib Require Import ZArith.
From stdpp Require Import base gmap strings pretty list fin_maps sorting.

Local Open Scope string_scope.
Local Open Scope list_scope.
Local Open Scope Z_scope.

(* ===================================================================== *)
(** * JavaScript values *)
(* ===================================================================== *)

(** A value of type [A | null | undefined]. *)
Inductive Nullish (A : Type) : Type :=
| Undefined
| Null
| Val (a : A).
Arguments Undefined {A}.
Arguments Null {A}.
Arguments Val {A} a.

(** [x || 0] for [x : number | null | undefined]: every falsy operand
    ([undefined], [null] and the number [0]) yields the right operand. *)
Definition or_zero (x : Nullish Z) : Z :=
  match x with
  | Undefined => 0
  | Null => 0
  | Val n => if n =? 0 then 0 else n
  end.

(** Property values of unknown static type (the [any] of TypeScript). *)
#[warnings="-register-all"]
Inductive Json : Type :=
| JUndefined
| JNull
| JBool (b : bool)
| JNum (n : Z)
| JStr (s : string)
| JArr (items : list Json)
| JObj (props : list (string * Json)).

(** [v === s] for a string literal [s]: strict equality never coerces. *)
Definition strict_eq_string (v : Json) (s : string) : bool :=
  match v with
  | JStr s' => bool_decide (s' = s)
  | _ => false
  end.

(** A thrown or reported error object; only [code] is ever inspected. *)
Record JsError : Type := {
  code : Json;
  message : string;
}.

(* ===================================================================== *)
(** * Promises and [async] functions *)
(* ===================================================================== *)

Inductive Outcome (A : Type) : Type :=
| Fulfilled (a : A)
| Rejected (reason : JsError).
Arguments Fulfilled {A} a.
Arguments Rejected {A} reason.

(** A promise that will settle: the instant at which it does matters only
    to [Promise.all], which rejects with the earliest rejection. *)
Record Promise (A : Type) : Type := {
  settles_at : nat;
  outcome : Outcome A;
}.
Arguments settles_at {A} p.
Arguments outcome {A} p.

Fixpoint first_rejection {A} (ps : list (Promise A)) : option (nat * JsError) :=
  match ps with
  | [] => None
  | p :: ps' =>
      let rest := first_rejection ps' in
      match outcome p with
      | Fulfilled _ => rest
      | Rejected e =>
          match rest with
          | Some (t', e') =>
              if (t' <? settles_at p)%nat then Some (t', e')
              else Some (settles_at p, e)
          | None => Some (settles_at p, e)
          end
      end
  end.

Fixpoint fulfilled_values {A} (ps : list (Promise A)) : list A :=
  match ps with
  | [] => []
  | p :: ps' =>
      match outcome p with
      | Fulfilled a => a :: fulfilled_values ps'
      | Rejected _ => fulfilled_values ps'
      end
  end.

(** [Promise.all]: fulfils with all the values, in order, once every input
    has fulfilled; rejects with the reason of the first input to reject. *)
Definition Promise_all {A} (ps : list (Promise A)) : Promise (list A) :=
  match first_rejection ps with
  | Some (t, e) => {| settles_at := t; outcome := Rejected e |}
  | None =>
      {| settles_at := foldr Nat.max 0%nat (settles_at <$> ps);
         outcome := Fulfilled (fulfilled_values ps) |}
  end.

(** The body of an [async] function: it threads the observable state [S]
    and either returns or throws. *)
Definition Act (S A : Type) : Type := S → Outcome A * S.

Definition ret {S A} (a : A) : Act S A := λ s, (Fulfilled a, s).

Definition throw {S A} (e : JsError) : Act S A := λ s, (Rejected e, s).

Definition bind {S A B} (m : Act S A) (k : A → Act S B) : Act S B :=
  λ s, match m s with
       | (Fulfilled a, s') => k a s'
       | (Rejected e, s') => (Rejected e, s')
       end.

(** [try { body } catch (error) { handler error }] *)
Definition try_catch {S A} (body : Act S A) (handler : JsError → Act S A)
  : Act S A :=
  λ s, match body s with
       | (Fulfilled a, s') => (Fulfilled a, s')
       | (Rejected e, s') => handler e s'
       end.

(** [await p] *)
Definition await {S A} (p : Promise A) : Act S A := λ s, (outcome p, s).

Definition modify {S} (f : S → S) : Act S () := λ s, (Fulfilled (), f s).

Notation "x <- m ;; k" := (bind m (λ x, k))
  (at level 100, m at next level, right associativity).
Notation "m ;; k" := (bind m (λ _, k))
  (at level 100, right associativity).

(* ===================================================================== *)
(** * The remote backend client *)
(* ===================================================================== *)

(** A returned row.  Every query of the service selects [created_at]; it
    is kept as the instant it denotes, in milliseconds since the epoch
    (what [new Date(item.created_at)] evaluates to).  The other selected
    columns are kept by name. *)
Record Row : Type := {
  created_at : Z;
  columns : list (string * Json);
}.

(** The response object a query resolves to: [{ data, error, count }]. *)
Record Response : Type := {
  data : option (list Row);
  error : option JsError;
  count : Nullish Z;
}.

(** A query as assembled by the builder calls of the client. *)
Record Query : Type := {
  q_from : string;
  q_select : list string;
  q_head_count : bool;
  q_gte : option (string * Z);
  q_order : option (string * bool);
  q_limit : option Z;
}.

Definition from (table : string) : Query :=
  {| q_from := table; q_select := []; q_head_count := false;
     q_gte := None; q_order := None; q_limit := None |}.

(** [.select(cols)] *)
Definition select (cols : list string) (q : Query) : Query :=
  {| q_from := q_from q; q_select := cols; q_head_count := false;
     q_gte := q_gte q; q_order := q_order q; q_limit := q_limit q |}.

(** [.select(cols, { count: 'exact', head: true })] *)
Definition select_count_head (cols : list string) (q : Query) : Query :=
  {| q_from := q_from q; q_select := cols; q_head_count := true;
     q_gte := q_gte q; q_order := q_order q; q_limit := q_limit q |}.

(** [.gte(col, t)] *)
Definition gte (col : string) (t : Z) (q : Query) : Query :=
  {| q_from := q_from q; q_select := q_select q;
     q_head_count := q_head_count q;
     q_gte := Some (col, t); q_order := q_order q; q_limit := q_limit q |}.

(** [.order(col, { ascending })] *)
Definition order (col : string) (ascending : bool) (q : Query) : Query :=
  {| q_from := q_from q; q_select := q_select q;
     q_head_count := q_head_count q;
     q_gte := q_gte q; q_order := Some (col, ascending);
     q_limit := q_limit q |}.

(** [.limit(n)] *)
Definition limit (n : Z) (q : Query) : Query :=
  {| q_from := q_from q; q_select := q_select q;
     q_head_count := q_head_count q;
     q_gte := q_gte q; q_order := q_order q; q_limit := Some n |}.

(** The client, as the service sees it: awaiting a query gives a promise
    of a response.  Nothing more is assumed of it here. *)
Definition Client : Type := Query → Promise Response.

(** The console, as the list of [console.error] calls made so far. *)
Definition Console : Type := list (string * JsError).

Definition console_error (msg : string) (e : JsError) : Act Console () :=
  modify (λ log, log ++ [(msg, e)]).

(* ===================================================================== *)
(** * statsService *)
(* ===================================================================== *)

Record DashboardStats : Type := {
  contactsCount : Z;
  projectsCount : Z;
  blogPostsCount : Z;
  servicesCount : Z;
  sectorsCount : Z;
  navigationItemsCount : Z;
  skillsCount : Z;
  chatbotKnowledgeCount : Z;
}.

(** Reading a property of [undefined] throws. *)
Definition TypeError : JsError :=
  {| code := JUndefined;
     message := "Cannot read properties of undefined" |}.

Definition getDashboardStats (supabase : Client) : Act Console DashboardStats :=
  try_catch
    (results <- await (Promise_all [
        supabase (select_count_head ["id"] (from "contact"));
        supabase (select_count_head ["id"] (from "projects"));
        supabase (select_count_head ["id"] (from "blog_posts"));
        supabase (select_count_head ["id"] (from "services"));
        supabase (select_count_head ["id"] (from "sectors"));
        supabase (select_count_head ["id"] (from "navigation"));
        supabase (select_count_head ["id"] (from "skills"));
        supabase (select_count_head ["id"] (from "chatbot_knowledge"))
      ]) ;;
     match results with
     | [contactsResult; projectsResult; blogPostsResult; servicesResult;
        sectorsResult; navigationResult; skillsResult; chatbotResult] =>
         ret {| contactsCount := or_zero (count contactsResult);
                projectsCount := or_zero (count projectsResult);
                blogPostsCount := or_zero (count blogPostsResult);
                servicesCount := or_zero (count servicesResult);
                sectorsCount := or_zero (count sectorsResult);
                navigationItemsCount := or_zero (count navigationResult);
                skillsCount := or_zero (count skillsResult);
                chatbotKnowledgeCount := or_zero (count chatbotResult) |}
     | _ => throw TypeError
     end)
    (λ error,
       console_error "Erreur lors de la récupération des statistiques:" error ;;
       throw error).

(** [data || []]: an array, even an empty one, is truthy. *)
Definition or_empty (d : option (list Row)) : list Row :=
  match d with
  | Some rows => rows
  | None => []
  end.

(** A default parameter value applies when the argument is omitted. *)
Definition default_param (d : Z) (arg : option Z) : Z :=
  match arg with
  | Some v => v
  | None => d
  end.

Definition getRecentContacts (supabase : Client) (limit_arg : option Z)
  : Act Console (list Row) :=
  let limit_ := default_param 5 limit_arg in
  try_catch
    (r <- await (supabase
         (limit limit_
            (order "created_at" false
               (select ["id"; "name"; "email"; "created_at"]
                  (from "contact"))))) ;;
     match error r with
     | Some e => throw e
     | None => ret (or_empty (data r))
     end)
    (λ error,
       console_error "Erreur lors de la récupération des contacts récents:" error ;;
       ret []).

Definition getRecentProjects (supabase : Client) (limit_arg : option Z)
  : Act Console (list Row) :=
  let limit_ := default_param 5 limit_arg in
  try_catch
    (r <- await (supabase
         (limit limit_
            (order "created_at" false
               (select ["id"; "title"; "status"; "created_at"]
                  (from "projects"))))) ;;
     match error r with
     | Some e => throw e
     | None => ret (or_empty (data r))
     end)
    (λ error,
       console_error "Erreur lors de la récupération des projets récents:" error ;;
       ret []).

Definition getRecentBlogPosts (supabase : Client) (limit_arg : option Z)
  : Act Console (list Row) :=
  let limit_ := default_param 5 limit_arg in
  try_catch
    (r <- await (supabase
         (limit limit_
            (order "created_at" false
               (select ["id"; "title"; "status"; "published_at"; "created_at"]
                  (from "blog_posts"))))) ;;
     match error r with
     | Some e => throw e
     | None => ret (or_empty (data r))
     end)
    (λ error,
       console_error "Erreur lors de la récupération des articles récents:" error ;;
       ret []).

(** ** The 30-day evolution *)

Definition msPerDay : Z := 86400000.

(** The time zone of the host, as the language specification has it:
    [LocalTZA zone t true] is the offset of local time from UTC, in
    milliseconds, at the instant [t]; [LocalTZA zone t false] is the
    offset that applies to the local time value [t]. *)
Record TimeZone : Type := {
  LocalTZA : Z → bool → Z;
}.

Definition LocalTime (zone : TimeZone) (t : Z) : Z := t + LocalTZA zone t true.

Definition UTC (zone : TimeZone) (t : Z) : Z := t - LocalTZA zone t false.

Definition Day (t : Z) : Z := t / msPerDay.

Definition TimeWithinDay (t : Z) : Z := t `mod` msPerDay.

Definition MakeDate (day : Z) (time : Z) : Z := day * msPerDay + time.

(** [const d = new Date(); d.setDate(d.getDate() - 30)] for a clock that
    reads [now].  [setDate] works on the local calendar: with [t] the
    local time of [now], the day of the month minus thirty, counted from
    the first of the month of [t], is the day thirty days before the day
    of [t]; the time within the day is kept, and the local time obtained
    is turned back into an instant. *)
Definition thirtyDaysAgo (zone : TimeZone) (now : Z) : Z :=
  let t := LocalTime zone now in
  UTC zone (MakeDate (Day t - 30) (TimeWithinDay t)).

Record StatsEvolution : Type := {
  contacts : gmap string Z;
  projects : gmap string Z;
  blogPosts : gmap string Z;
}.

(** [grouped[date]] on an object built from [{}] by assignments only. *)
Definition property (grouped : gmap string Z) (key : string) : Nullish Z :=
  match grouped !! key with
  | Some v => Val v
  | None => Undefined
  end.

Section Evolution.

(** [t ↦ new Date(t).toLocaleDateString('fr-FR')], a function of the
    host (locale data and time zone). *)
Variable toLocaleDateString : Z → string.

(** The time zone of the host. *)
Variable zone : TimeZone.

(** The callback of [data.forEach] in [groupByDay]. *)
Definition count_item (grouped : gmap string Z) (item : Row) : gmap string Z :=
  let date := toLocaleDateString (created_at item) in
  <[date := or_zero (property grouped date) + 1]> grouped.

Definition groupByDay (data : list Row) : gmap string Z :=
  foldl count_item ∅ data.

(** The items of a list that fall on a given day. *)
Definition on_day (day : string) (data : list Row) : list Row :=
  filter (λ item, toLocaleDateString (created_at item) = day) data.

Definition getStatsEvolution (now : Z) (supabase : Client)
  : Act Console StatsEvolution :=
  try_catch
    (results <- await (Promise_all [
        supabase (gte "created_at" (thirtyDaysAgo zone now)
                    (select ["created_at"] (from "contact")));
        supabase (gte "created_at" (thirtyDaysAgo zone now)
                    (select ["created_at"] (from "projects")));
        supabase (gte "created_at" (thirtyDaysAgo zone now)
                    (select ["created_at"] (from "blog_posts")))
      ]) ;;
     match results with
     | [contactsData; projectsData; blogPostsData] =>
         ret {| contacts := groupByDay (or_empty (data contactsData));
                projects := groupByDay (or_empty (data projectsData));
                blogPosts := groupByDay (or_empty (data blogPostsData)) |}
     | _ => throw TypeError
     end)
    (λ error,
       console_error "Erreur lors de la récupération de l'évolution:" error ;;
       ret {| contacts := ∅; projects := ∅; blogPosts := ∅ |}).

End Evolution.

(** The sum of all the bucket values of a histogram. *)
Definition bucket_total (m : gmap string Z) : Z :=
  map_fold (λ _ v acc, v + acc) 0 m.

(* ===================================================================== *)
(** * A reference backend *)
(* ===================================================================== *)

(** What the service may meet when it awaits a query. *)
Inductive Fault : Type :=
| Healthy
| ErrorResult (e : JsError)   (* resolves to [{ data: null, error: e }] *)
| Rejects (e : JsError).      (* the promise itself rejects *)

Record Remote : Type := {
  tables : gmap string (list Row);
  fault : Query → Fault;
  latency : Query → nat;
}.

Definition newest_first (r1 r2 : Row) : Prop := created_at r2 ≤ created_at r1.
Definition oldest_first (r1 r2 : Row) : Prop := created_at r1 ≤ created_at r2.

#[global] Instance newest_first_dec : RelDecision newest_first.
Proof. intros r1 r2. unfold newest_first. apply _. Defined.
#[global] Instance oldest_first_dec : RelDecision oldest_first.
Proof. intros r1 r2. unfold oldest_first. apply _. Defined.

Definition failed (e : JsError) : Response :=
  {| data := None; error := Some e; count := Null |}.

Definition backend_error (c : string) (m : string) : JsError :=
  {| code := JStr c; message := m |}.

(** The columns of a row that a selection keeps. *)
Definition project (cols : list string) (r : Row) : Row :=
  {| created_at := created_at r;
     columns := filter (λ kv, kv.1 ∈ cols) (columns r) |}.

(** Modelled from the spec: the remote backend collaborator, a hosted
    service whose code is not in the repository.  Per named collection it
    offers a head-only count and a selection with projection, ordering
    and limit; the only column the readers filter and order on is the
    creation timestamp.
    A collection that does not exist, a column that cannot be compared
    and a negative limit are answered by an error result. *)
Definition run_query (db : gmap string (list Row)) (q : Query) : Response :=
  match db !! q_from q with
  | None => failed (backend_error "42P01" "relation does not exist")
  | Some rows =>
      let filtered :=
        match q_gte q with
        | Some (col, t) =>
            if bool_decide (col = "created_at")
            then Some (filter (λ r, t ≤ created_at r) rows)
            else None
        | None => Some rows
        end in
      let ordered :=
        match filtered, q_order q with
        | Some rs, Some (col, ascending) =>
            if bool_decide (col = "created_at")
            then Some (if ascending then merge_sort oldest_first rs
                       else merge_sort newest_first rs)
            else None
        | Some rs, None => Some rs
        | None, _ => None
        end in
      let limited :=
        match ordered, q_limit q with
        | Some rs, Some n => if n <? 0 then None else Some (take (Z.to_nat n) rs)
        | Some rs, None => Some rs
        | None, _ => None
        end in
      match filtered, limited with
      | Some all, Some rs =>
          if q_head_count q
          then {| data := None; error := None;
                  count := Val (Z.of_nat (length all)) |}
          else {| data := Some (project (q_select q) <$> rs); error := None;
                  count := Null |}
      | _, _ => failed (backend_error "PGRST100" "the request cannot be served")
      end
  end.

Definition remote_client (r : Remote) : Client :=
  λ q, {| settles_at := latency r q;
          outcome :=
            match fault r q with
            | Healthy => Fulfilled (run_query (tables r) q)
            | ErrorResult e => Fulfilled (failed e)
            | Rejects e => Rejected e
            end |}.

(* ===================================================================== *)
(** * The Sectors page *)
(* ===================================================================== *)

(** Modelled from the spec: [Sector] and [SectorFormData] are declared in
    [sector.types], whose source is not available.  A sector has a
    flat identity and display shape plus a nested [content_modal], itself
    holding a nested case study; the form holds the flattened projection.
    The field values are kept as they come. *)
Module CaseStudy.
Record t : Type := {
  title : Json;
  results : Json;
}.
End CaseStudy.

Module ContentModal.
Record t : Type := {
  hero_title : Json;
  hero_subtitle : Json;
  description : Json;
  highlights : Json;
  tech_stack : Json;
  case_study : CaseStudy.t;
  cta_text : Json;
}.
End ContentModal.

Module Sector.
Record t : Type := {
  id : Json;
  title : Json;
  description : Json;
  services : Json;
  icon : Json;
  image : Json;
  content_modal : ContentModal.t;
}.
End Sector.

Module SectorFormData.
Record t : Type := {
  id : Json;
  title : Json;
  description : Json;
  services : Json;
  icon : Json;
  image : Json;
  hero_title : Json;
  hero_subtitle : Json;
  modal_description : Json;
  highlights : Json;
  tech_stack : Json;
  case_study_title : Json;
  case_study_results : Json;
  cta_text : Json;
}.
End SectorFormData.

Module Sectors.

(** The four [useState] cells of the component. *)
Record PageState : Type := {
  isModalOpen : bool;
  isDeleteModalOpen : bool;
  editingSector : option Sector.t;
  deletingSector : option Sector.t;
}.

(** The variables of the update mutation: [{ id, data }]. *)
Record UpdateVariables : Type := {
  upd_id : Json;
  upd_data : Sector.t;
}.

(** What a handler does that can be observed from outside, in order. *)
Inductive Event : Type :=
| CreateCalled (variables : Sector.t)
| UpdateCalled (variables : UpdateVariables)
| DeleteCalled (variables : Json)
| ToastSuccess (msg : string)
| ToastError (msg : string)
| ConsoleError (msg : string) (e : JsError).

(** The pending React state and the events so far. *)
Record World : Type := {
  state : PageState;
  trace : list Event;
}.

(** The three mutation hooks ([useCreateSector], [useUpdateSector],
    [useDeleteSector]): all a handler knows of one is the promise its
    [mutateAsync] returns. *)
Record Mutations : Type := {
  createMutation : Sector.t → Promise ();
  updateMutation : UpdateVariables → Promise ();
  deleteMutation : Json → Promise ();
}.

Definition emit (ev : Event) : Act World () :=
  modify (λ w, {| state := state w; trace := trace w ++ [ev] |}).

Definition set_state (f : PageState → PageState) : Act World () :=
  modify (λ w, {| state := f (state w); trace := trace w |}).

Definition setIsModalOpen (b : bool) : Act World () :=
  set_state (λ st, {| isModalOpen := b;
                      isDeleteModalOpen := isDeleteModalOpen st;
                      editingSector := editingSector st;
                      deletingSector := deletingSector st |}).

Definition setIsDeleteModalOpen (b : bool) : Act World () :=
  set_state (λ st, {| isModalOpen := isModalOpen st;
                      isDeleteModalOpen := b;
                      editingSector := editingSector st;
                      deletingSector := deletingSector st |}).

Definition setEditingSector (s : option Sector.t) : Act World () :=
  set_state (λ st, {| isModalOpen := isModalOpen st;
                      isDeleteModalOpen := isDeleteModalOpen st;
                      editingSector := s;
                      deletingSector := deletingSector st |}).

Definition setDeletingSector (s : option Sector.t) : Act World () :=
  set_state (λ st, {| isModalOpen := isModalOpen st;
                      isDeleteModalOpen := isDeleteModalOpen st;
                      editingSector := editingSector st;
                      deletingSector := s |}).

Definition toast_success (msg : string) : Act World () := emit (ToastSuccess msg).
Definition toast_error (msg : string) : Act World () := emit (ToastError msg).
Definition console_error (msg : string) (e : JsError) : Act World () :=
  emit (ConsoleError msg e).

(** [await mutation.mutateAsync(variables)] *)
Definition mutateAsync {V} (called : V → Event) (mutation : V → Promise ())
    (variables : V) : Act World () :=
  emit (called variables) ;;
  await (mutation variables).

(** The handlers close over the state of the render that created them:
    they read [render] and write the pending state of the world. *)

Definition handleCreate : Act World () :=
  setEditingSector None ;;
  setIsModalOpen true.

Definition handleEdit (sector : Sector.t) : Act World () :=
  setEditingSector (Some sector) ;;
  setIsModalOpen true.

Definition handleDeleteClick (sector : Sector.t) : Act World () :=
  setDeletingSector (Some sector) ;;
  setIsDeleteModalOpen true.

Definition build_content_modal (formData : SectorFormData.t) : ContentModal.t :=
  {| ContentModal.hero_title := SectorFormData.hero_title formData;
     ContentModal.hero_subtitle := SectorFormData.hero_subtitle formData;
     ContentModal.description := SectorFormData.modal_description formData;
     ContentModal.highlights := SectorFormData.highlights formData;
     ContentModal.tech_stack := SectorFormData.tech_stack formData;
     ContentModal.case_study :=
       {| CaseStudy.title := SectorFormData.case_study_title formData;
          CaseStudy.results := SectorFormData.case_study_results formData |};
     ContentModal.cta_text := SectorFormData.cta_text formData |}.

Definition build_sectorData (formData : SectorFormData.t) : Sector.t :=
  {| Sector.id := SectorFormData.id formData;
     Sector.title := SectorFormData.title formData;
     Sector.description := SectorFormData.description formData;
     Sector.services := SectorFormData.services formData;
     Sector.icon := SectorFormData.icon formData;
     Sector.image := SectorFormData.image formData;
     Sector.content_modal := build_content_modal formData |}.

Definition handleSubmit (hooks : Mutations) (render : PageState)
    (formData : SectorFormData.t) : Act World () :=
  try_catch
    (let sectorData := build_sectorData formData in
     match editingSector render with
     | Some editing =>
         mutateAsync UpdateCalled (updateMutation hooks)
           {| upd_id := Sector.id editing; upd_data := sectorData |} ;;
         toast_success "Secteur mis à jour avec succès !"
     | None =>
         mutateAsync CreateCalled (createMutation hooks) sectorData ;;
         toast_success "Secteur créé avec succès !"
     end ;;
     setIsModalOpen false ;;
     setEditingSector None)
    (λ error,
       console_error "Erreur lors de la sauvegarde du secteur:" error ;;
       if strict_eq_string (code error) "23505"
       then toast_error "Un secteur avec cet ID existe déjà."
       else toast_error
              (match editingSector render with
               | Some _ => "Erreur lors de la mise à jour du secteur."
               | None => "Erreur lors de la création du secteur."
               end)).

Definition handleConfirmDelete (hooks : Mutations) (render : PageState)
  : Act World () :=
  match deletingSector render with
  | None => ret ()
  | Some deleting =>
      try_catch
        (mutateAsync DeleteCalled (deleteMutation hooks) (Sector.id deleting) ;;
         toast_success "Secteur supprimé avec succès !" ;;
         setIsDeleteModalOpen false ;;
         setDeletingSector None)
        (λ error,
           console_error "Erreur lors de la suppression du secteur:" error ;;
           toast_error "Erreur lors de la suppression du secteur.")
  end.

Definition handleCloseModal : Act World () :=
  setIsModalOpen false ;;
  setEditingSector None.

Definition handleCloseDeleteModal : Act World () :=
  setIsDeleteModalOpen false ;;
  setDeletingSector None.

(** A handler created by a render, run to completion from that render. *)
Definition run (render : PageState) (handler : Act World ())
  : Outcome () * World :=
  handler {| state := render; trace := [] |}.

Definition is_toast (ev : Event) : bool :=
  match ev with
  | ToastSuccess _ | ToastError _ => true
  | _ => false
  end.

(** The notifications among the events. *)
Definition notifications (evs : list Event) : list Event :=
  List.filter is_toast evs.

Definition is_request (ev : Event) : bool :=
  match ev with
  | CreateCalled _ | UpdateCalled _ | DeleteCalled _ => true
  | _ => false
  end.

(** The mutation calls among the events. *)
Definition requests (evs : list Event) : list Event :=
  List.filter is_request evs.

(** The promise [handleSubmit] awaits: the update of the sector being
    edited when there is one, the creation of a new sector otherwise. *)
Definition submitted (hooks : Mutations) (render : PageState)
    (formData : SectorFormData.t) : Promise () :=
  match editingSector render with
  | Some editing =>
      updateMutation hooks
        {| upd_id := Sector.id editing; upd_data := build_sectorData formData |}
  | None => createMutation hooks (build_sectorData formData)
  end.

End Sectors.

(* ===================================================================== *)
(** * Vocabulary of the statements *)
(* ===================================================================== *)

(** The eight tracked entity kinds, each with the collection that is
    counted for it and the key under which its count is reported, as
    [getDashboardStats] pairs them. *)
Inductive EntityKind : Type :=
| Contact
| Project
| BlogPost
| Service
| SectorKind
| NavigationItem
| Skill
| ChatbotKnowledge.

Definition collection (k : EntityKind) : string :=
  match k with
  | Contact => "contact"
  | Project => "projects"
  | BlogPost => "blog_posts"
  | Service => "services"
  | SectorKind => "sectors"
  | NavigationItem => "navigation"
  | Skill => "skills"
  | ChatbotKnowledge => "chatbot_knowledge"
  end.

Definition count_query (k : EntityKind) : Query :=
  select_count_head ["id"] (from (collection k)).

Definition stat (k : EntityKind) (s : DashboardStats) : Z :=
  match k with
  | Contact => contactsCount s
  | Project => projectsCount s
  | BlogPost => blogPostsCount s
  | Service => servicesCount s
  | SectorKind => sectorsCount s
  | NavigationItem => navigationItemsCount s
  | Skill => skillsCount s
  | ChatbotKnowledge => chatbotKnowledgeCount s
  end.

(** A response with its [error] field cleared. *)
Definition clear_error (r : Response) : Response :=
  {| data := data r; error := None; count := count r |}.

(** The same client with the [error] field of every response cleared. *)
Definition without_errors (supabase : Client) : Client :=
  λ q, {| settles_at := settles_at (supabase q);
          outcome :=
            match outcome (supabase q) with
            | Fulfilled r => Fulfilled (clear_error r)
            | Rejected e => Rejected e
            end |}.

(** A query fails when its promise rejects or its response carries an
    error. *)
Definition query_fails (p : Promise Response) : Prop :=
  match outcome p with
  | Fulfilled r => is_Some (error r)
  | Rejected _ => True
  end.

Definition rejects {A} (p : Promise A) : Prop :=
  match outcome p with
  | Fulfilled _ => False
  | Rejected _ => True
  end.

(** The query a recent-items reader sends. *)
Definition recent_query (table : string) (cols : list string) (n : Z) : Query :=
  limit n (order "created_at" false (select cols (from table))).

(** The query the evolution reader sends for one collection. *)
Definition evolution_query (zone : TimeZone) (now : Z) (table : string)
  : Query :=
  gte "created_at" (thirtyDaysAgo zone now) (select ["created_at"] (from table)).

Definition contact_columns : list string :=
  ["id"; "name"; "email"; "created_at"].
Definition project_columns : list string :=
  ["id"; "title"; "status"; "created_at"].
Definition blog_post_columns : list string :=
  ["id"; "title"; "status"; "published_at"; "created_at"].

(** What a recent-items reader returns, given what its query settles to. *)
Definition recent_result (p : Promise Response) : list Row :=
  match outcome p with
  | Fulfilled r =>
      match error r with
      | Some _ => []
      | None => or_empty (data r)
      end
  | Rejected _ => []
  end.

Definition no_evolution : StatsEvolution :=
  {| contacts := ∅; projects := ∅; blogPosts := ∅ |}.

(** Most recent first: creation timestamps never increase along the list. *)
Definition most_recent_first (rows : list Row) : Prop :=
  ∀ (i j : nat) (a b : Row),
    (i ≤ j)%nat → rows !! i = Some a → rows !! j = Some b →
    created_at b ≤ created_at a.

(** What is asked of a backend for the recent-items readers: the rows of
    a successful response respect the limit and the descending order of
    the query. *)
Definition respects_limit_and_order (supabase : Client) : Prop :=
  ∀ q r rows,
    outcome (supabase q) = Fulfilled r → error r = None → data r = Some rows →
    (∀ n, q_limit q = Some n → 0 ≤ n → Z.of_nat (length rows) ≤ n) ∧
    (q_order q = Some ("created_at", false) → most_recent_first rows).

(** The rows of a collection of the reference backend. *)
Definition rows_of (r : Remote) (table : string) : list Row :=
  default [] (tables r !! table).

(** The items of a list created at or after an instant: what the
    reference backend keeps for [.gte('created_at', boundary)]. *)
Definition created_since (boundary : Z) (rows : list Row) : list Row :=
  filter (λ item, boundary ≤ created_at item) rows.

(** The trailing 30-day window from the time of the query, as the
    specification words it: the thirty days of twenty-four hours that
    end at [now]. *)
Definition in_trailing_30_days (now : Z) (t : Z) : Prop :=
  now - 30 * 86400000 ≤ t ∧ t ≤ now.

#[global] Instance in_trailing_30_days_dec (now t : Z) :
  Decision (in_trailing_30_days now t).
Proof. unfold in_trailing_30_days. apply _. Defined.

(** The items of a list created within the trailing 30-day window. *)
Definition created_in_trailing_30_days (now : Z) (rows : list Row)
  : list Row :=
  filter (λ item, in_trailing_30_days now (created_at item)) rows.

(** The offset of the host from UTC is the same thirty local days before
    [now] as it is at [now]: no change of offset (summer time) lies
    between the two dates. *)
Definition steady_offset (zone : TimeZone) (now : Z) : Prop :=
  LocalTZA zone (LocalTime zone now - 30 * msPerDay) false
  = LocalTZA zone now true.

(** No item of the three collections of the evolution reader is dated
    after [now]. *)
Definition none_from_the_future (r : Remote) (now : Z) : Prop :=
  ∀ table, table ∈ ["contact"; "projects"; "blog_posts"] →
  ∀ item, item ∈ rows_of r table → created_at item ≤ now.

(* ===================================================================== *)
(** * useDashboard: the query hooks *)
(* ===================================================================== *)

(** What a query function runs against: the backend client, and the clock
    and date formatting of the host. *)
Record Host : Type := {
  host_supabase : Client;
  host_now : Z;
  host_zone : TimeZone;
  host_toLocaleDateString : Z → string;
}.

(** The options a hook hands to [useQuery]; an option left out is
    [undefined]. *)
Record UseQueryOptions (A : Type) : Type := {
  queryKey : list Json;
  queryFn : Host → Act Console A;
  staleTime : Z;
  refetchOnWindowFocus : Nullish bool;
}.
Arguments queryKey {A} u.
Arguments queryFn {A} u.
Arguments staleTime {A} u.
Arguments refetchOnWindowFocus {A} u.

Definition useDashboardStats : UseQueryOptions DashboardStats :=
  {| queryKey := [JStr "dashboard"; JStr "stats"];
     queryFn := λ host, getDashboardStats (host_supabase host);
     staleTime := 1000 * 60 * 5;
     refetchOnWindowFocus := Val true |}.

Definition useRecentContacts (limit_arg : option Z)
  : UseQueryOptions (list Row) :=
  let limit_ := default_param 5 limit_arg in
  {| queryKey := [JStr "dashboard"; JStr "recent-contacts"; JNum limit_];
     queryFn := λ host, getRecentContacts (host_supabase host) (Some limit_);
     staleTime := 1000 * 60 * 2;
     refetchOnWindowFocus := Undefined |}.

Definition useRecentProjects (limit_arg : option Z)
  : UseQueryOptions (list Row) :=
  let limit_ := default_param 5 limit_arg in
  {| queryKey := [JStr "dashboard"; JStr "recent-projects"; JNum limit_];
     queryFn := λ host, getRecentProjects (host_supabase host) (Some limit_);
     staleTime := 1000 * 60 * 2;
     refetchOnWindowFocus := Undefined |}.

Definition useRecentBlogPosts (limit_arg : option Z)
  : UseQueryOptions (list Row) :=
  let limit_ := default_param 5 limit_arg in
  {| queryKey := [JStr "dashboard"; JStr "recent-blog-posts"; JNum limit_];
     queryFn := λ host, getRecentBlogPosts (host_supabase host) (Some limit_);
     staleTime := 1000 * 60 * 2;
     refetchOnWindowFocus := Undefined |}.

Definition useStatsEvolution : UseQueryOptions StatsEvolution :=
  {| queryKey := [JStr "dashboard"; JStr "stats-evolution"];
     queryFn := λ host,
       getStatsEvolution (host_toLocaleDateString host) (host_zone host)
         (host_now host)
         (host_supabase host);
     staleTime := 1000 * 60 * 10;
     refetchOnWindowFocus := Undefined |}.

(** The keys under which the five hooks cache, for given limits of the
    three recent-items hooks. *)
Definition dashboard_keys (l1 l2 l3 : option Z) : list (list Json) :=
  [ queryKey useDashboardStats;
    queryKey (useRecentContacts l1);
    queryKey (useRecentProjects l2);
    queryKey (useRecentBlogPosts l3);
    queryKey useStatsEvolution ].

(* ===================================================================== *)
(** * The Sectors page: what is rendered, and sequences of events *)
(* ===================================================================== *)

(** [String(v)], as a template literal applies it to an interpolated
    value.  Inside an array, [null] and [undefined] print as nothing. *)
Fixpoint js_String (v : Json) : string :=
  match v with
  | JUndefined => "undefined"
  | JNull => "null"
  | JBool true => "true"
  | JBool false => "false"
  | JNum n => pretty n
  | JStr s => s
  | JArr items =>
      (fix join (l : list Json) : string :=
         match l with
         | [] => ""
         | x :: rest =>
             let element :=
               match x with
               | JUndefined | JNull => ""
               | _ => js_String x
               end in
             match rest with
             | [] => element
             | _ :: _ => String.append element (String.append "," (join rest))
             end
         end) items
  | JObj _ => "[object Object]"
  end.

Module SectorsView.

Import Sectors.

(** What [useSectors] returns. *)
Record SectorsQuery : Type := {
  sectors : option (list Sector.t);
  isLoading : bool;
  load_error : option JsError;
}.

(** The [isPending] flags of the three mutations. *)
Record Pending : Type := {
  createPending : bool;
  updatePending : bool;
  deletePending : bool;
}.

Record SectorCardProps : Type := {
  card_key : Json;
  card_sector : Sector.t;
  card_onEdit : Act World ();
  card_onDelete : Act World ();
}.

Inductive Listing : Type :=
| EmptyState (onCreate : Act World ())
| Grid (cards : list SectorCardProps).

Record SectorModalProps : Type := {
  modal_sector : option Sector.t;
  modal_onClose : Act World ();
  modal_onSubmit : SectorFormData.t → Act World ();
  modal_isLoading : bool;
}.

Record DeleteConfirmModalProps : Type := {
  confirm_isOpen : bool;
  confirm_onClose : Act World ();
  confirm_onConfirm : Act World ();
  confirm_title : string;
  confirm_message : string;
  confirm_isLoading : bool;
}.

(** The page proper: the data-dependent text of the header, the button
    of the header, the listing and the two modals when they are mounted.
    Static markup and styling are left out. *)
Record PageProps : Type := {
  subtitle : string;
  header_onCreate : Act World ();
  listing : Listing;
  sectorModal : option SectorModalProps;
  deleteConfirmModal : option DeleteConfirmModalProps;
}.

Inductive View : Type :=
| LoadingView (text : string)
| ErrorView (title : string) (message : string)
| PageView (page : PageProps).

(** [sectors?.length || 0] *)
Definition sectors_length (q : SectorsQuery) : nat :=
  match sectors q with
  | Some l => length l
  | None => 0%nat
  end.

(** The double quote character, as a string. *)
Definition quote : string := String (Ascii.ascii_of_nat 34) EmptyString.

(** The component body after its hooks: the three early or final
    [return]s. *)
Definition render (hooks : Mutations) (q : SectorsQuery) (pending : Pending)
    (st : PageState) : View :=
  if isLoading q then LoadingView "Chargement des secteurs..."
  else
    match load_error q with
    | Some _ =>
        ErrorView "Erreur de chargement"
          "Impossible de charger les secteurs. Vérifiez votre connexion."
    | None =>
        PageView
          {| subtitle :=
               String.append "Gérez les secteurs d'activité de votre portfolio ("
                 (String.append (pretty (sectors_length q))
                    (String.append " secteur"
                       (String.append
                          (if (1 <? sectors_length q)%nat then "s" else "")
                          ")")));
             header_onCreate := handleCreate;
             listing :=
               match sectors q with
               | None => EmptyState handleCreate
               | Some l =>
                   if (length l =? 0)%nat then EmptyState handleCreate
                   else Grid ((λ sector,
                                 {| card_key := Sector.id sector;
                                    card_sector := sector;
                                    card_onEdit := handleEdit sector;
                                    card_onDelete := handleDeleteClick sector |})
                                <$> l)
               end;
             sectorModal :=
               if isModalOpen st
               then Some {| modal_sector := editingSector st;
                            modal_onClose := handleCloseModal;
                            modal_onSubmit := handleSubmit hooks st;
                            modal_isLoading :=
                              createPending pending || updatePending pending |}
               else None;
             deleteConfirmModal :=
               if isDeleteModalOpen st
               then match deletingSector st with
                    | Some deleting =>
                        Some {| confirm_isOpen := isDeleteModalOpen st;
                                confirm_onClose := handleCloseDeleteModal;
                                confirm_onConfirm := handleConfirmDelete hooks st;
                                confirm_title := "Supprimer le secteur";
                                confirm_message :=
                                  String.append
                                    "Êtes-vous sûr de vouloir supprimer le secteur "
                                    (String.append quote
                                       (String.append
                                          (js_String (Sector.title deleting))
                                          (String.append quote
                                             " ? Cette action est irréversible.")));
                                confirm_isLoading := deletePending pending |}
                    | None => None
                    end
               else None |}
    end.

(** The state of the first render: the initial values of the four
    [useState] cells. *)
Definition initial : PageState :=
  {| isModalOpen := false; isDeleteModalOpen := false;
     editingSector := None; deletingSector := None |}.

(** What the user can trigger on the page. *)
Inductive Action : Type :=
| ClickCreate
| ClickEdit (sector : Sector.t)
| ClickDelete (sector : Sector.t)
| SubmitForm (formData : SectorFormData.t)
| ConfirmDelete
| CloseModal
| CloseDeleteModal.

(** The handler the current render wires to an action. *)
Definition handler (hooks : Mutations) (st : PageState) (a : Action)
  : Act World () :=
  match a with
  | ClickCreate => handleCreate
  | ClickEdit sector => handleEdit sector
  | ClickDelete sector => handleDeleteClick sector
  | SubmitForm formData => handleSubmit hooks st formData
  | ConfirmDelete => handleConfirmDelete hooks st
  | CloseModal => handleCloseModal
  | CloseDeleteModal => handleCloseDeleteModal
  end.

(** The state of the next render, once the handler has run to its end. *)
Definition step (st : PageState) (ev : Mutations * Action) : PageState :=
  state (run st (handler ev.1 st ev.2)).2.

(** The state after a sequence of actions, each with the mutation hooks
    as they answer at that moment, handled one after the other. *)
Definition after (evs : list (Mutations * Action)) : PageState :=
  foldl step initial evs.

(** The actions of the create/edit modal, as opposed to those of the
    delete confirmation. *)
Definition edit_side (a : Action) : bool :=
  match a with
  | ClickCreate | ClickEdit _ | SubmitForm _ | CloseModal => true
  | ClickDelete _ | ConfirmDelete | CloseDeleteModal => false
  end.

(** The actions whose handler awaits a mutation. *)
Definition asynchronous (a : Action) : bool :=
  match a with
  | SubmitForm _ | ConfirmDelete => true
  | _ => false
  end.

(** The two modal flags agree with their targets. *)
Definition consistent (st : PageState) : Prop :=
  (is_Some (editingSector st) → isModalOpen st = true)
  ∧ (isDeleteModalOpen st = true ↔ is_Some (deletingSector st)).

End SectorsView.

(** ** A host for the examples: the [fr-FR] locale in the UTC zone *)

(** The civil date, as (year, month, day), of a day counted from the epoch. *)
Definition civil_from_days (z : Z) : Z * Z * Z :=
  let z := z + 719468 in
  let era := z / 146097 in
  let doe := z - era * 146097 in
  let yoe := (doe - doe / 1460 + doe / 36524 - doe / 146096) / 365 in
  let y := yoe + era * 400 in
  let doy := doe - (365 * yoe + yoe / 4 - yoe / 100) in
  let mp := (5 * doy + 2) / 153 in
  let d := doy - (153 * mp + 2) / 5 + 1 in
  let m := if mp <? 10 then mp + 3 else mp - 9 in
  (if m <=? 2 then y + 1 else y, m, d).

Definition two_digits (n : Z) : string :=
  String.append (pretty ((n / 10) `mod` 10)) (pretty (n `mod` 10)).

Definition fr_FR_UTC (t : Z) : string :=
  let '(y, m, d) := civil_from_days (t / msPerDay) in
  String.append (two_digits d)
    (String.append "/" (String.append (two_digits m)
       (String.append "/" (pretty y)))).

(** The UTC zone. *)
Definition UTC_zone : TimeZone := {| LocalTZA := λ _ _, 0 |}.

(** [fr-FR] dates in a zone. *)
Definition fr_FR_in (zone : TimeZone) (t : Z) : string :=
  let '(y, m, d) := civil_from_days (Day (LocalTime zone t)) in
  String.append (two_digits d)
    (String.append "/" (String.append (two_digits m)
       (String.append "/" (pretty y)))).

(** 2026-10-25T01:00:00Z, when summer time ends in Europe/Paris. *)
Definition summer_time_ends : Z := 1792890000000.

(** Europe/Paris around that date: two hours ahead of UTC before, one
    hour after; a local time that occurs twice is read as the first. *)
Definition example_paris : TimeZone :=
  {| LocalTZA := λ t isUTC,
       if isUTC
       then (if t <? summer_time_ends then 7200000 else 3600000)
       else (if t <? summer_time_ends + 7200000 then 7200000 else 3600000) |}.

(** ** Example data *)

Definition example_now : Z := 1793606400000.   (* 2026-11-02T08:00:00Z *)

Definition example_row (t : Z) (n : string) : Row :=
  {| created_at := t; columns := [("id", JStr n); ("name", JStr n)] |}.

Definition example_tables : gmap string (list Row) :=
  {[ "contact" := [ example_row (example_now - 1 * msPerDay) "a";
                    example_row (example_now - 40 * msPerDay) "b";
                    example_row (example_now - 1 * msPerDay - 5) "c";
                    example_row (example_now - 3 * msPerDay) "d" ];
     "projects" := [ example_row (example_now - 2 * msPerDay) "p" ];
     "blog_posts" := [] ]}.

Definition example_remote : Remote :=
  {| tables := example_tables; fault := λ _, Healthy; latency := λ _, 1%nat |}.

Definition network_down : JsError :=
  {| code := JUndefined; message := "Failed to fetch" |}.

(** The same backend when every request is rejected. *)
Definition example_offline : Remote :=
  {| tables := example_tables; fault := λ _, Rejects network_down;
     latency := λ _, 1%nat |}.

(** A client that counts three projects, no row elsewhere, and answers
    the count of contacts with [null]. *)
Definition example_counts : Client :=
  λ q, {| settles_at := 1%nat;
          outcome :=
            Fulfilled
              {| data := None; error := None;
                 count := if bool_decide (q_from q = "contact") then Null
                          else if bool_decide (q_from q = "projects") then Val 3
                          else Val 0 |} |}.

Definition example_form : SectorFormData.t :=
  {| SectorFormData.id := JStr "fintech";
     SectorFormData.title := JStr "Fintech";
     SectorFormData.description := JStr "Payments";
     SectorFormData.services := JArr [JStr "audit"];
     SectorFormData.icon := JStr "Banknote";
     SectorFormData.image := JStr "/fintech.png";
     SectorFormData.hero_title := JStr "Finance";
     SectorFormData.hero_subtitle := JStr "Secure";
     SectorFormData.modal_description := JStr "Long text";
     SectorFormData.highlights := JArr [JStr "PCI"];
     SectorFormData.tech_stack := JArr [JStr "Postgres"];
     SectorFormData.case_study_title := JStr "Neo bank";
     SectorFormData.case_study_results := JArr [JStr "+30%"];
     SectorFormData.cta_text := JStr "Contact" |}.

Definition unique_violation : JsError :=
  {| code := JStr "23505";
     message := "duplicate key value violates unique constraint" |}.

Definition at_rest : Promise () := {| settles_at := 1%nat; outcome := Fulfilled () |}.

(** Hooks that accept everything. *)
Definition example_hooks_ok : Sectors.Mutations :=
  {| Sectors.createMutation := λ _, at_rest;
     Sectors.updateMutation := λ _, at_rest;
     Sectors.deleteMutation := λ _, at_rest |}.

(** Hooks that reject everything with [e]. *)
Definition example_hooks_failing (e : JsError) : Sectors.Mutations :=
  let p := {| settles_at := 1%nat; outcome := Rejected e |} in
  {| Sectors.createMutation := λ _, p;
     Sectors.updateMutation := λ _, p;
     Sectors.deleteMutation := λ _, p |}.

Definition example_creating : Sectors.PageState :=
  {| Sectors.isModalOpen := true; Sectors.isDeleteModalOpen := false;
     Sectors.editingSector := None; Sectors.deletingSector := None |}.

Definition example_editing : Sectors.PageState :=
  {| Sectors.isModalOpen := true; Sectors.isDeleteModalOpen := false;
     Sectors.editingSector := Some (Sectors.build_sectorData example_form);
     Sectors.deletingSector := None |}.

Definition example_deleting : Sectors.PageState :=
  {| Sectors.isModalOpen := false; Sectors.isDeleteModalOpen := true;
     Sectors.editingSector := None;
     Sectors.deletingSector := Some (Sectors.build_sectorData example_form) |}.

Definition permission_denied : JsError :=
  {| code := JStr "42501"; message := "permission denied for table contact" |}.

(** The same backend when the contacts alone cannot be read: the query
    resolves, with an error and no rows. *)
Definition example_contacts_down : Remote :=
  {| tables := example_tables;
     fault := λ q, if bool_decide (q_from q = "contact")
                   then ErrorResult permission_denied else Healthy;
     latency := λ _, 1%nat |}.

(** A backend whose only contact is dated five days after the call. *)
Definition example_postdated : Remote :=
  {| tables := {[ "contact" := [ example_row (example_now + 5 * msPerDay) "z" ];
                  "projects" := []; "blog_posts" := [] ]};
     fault := λ _, Healthy; latency := λ _, 1%nat |}.

(** A backend whose only contact is thirty days and thirty minutes old. *)
Definition example_just_older : Remote :=
  {| tables := {[ "contact" :=
                    [ example_row (example_now - 30 * msPerDay - 1800000) "y" ];
                  "projects" := []; "blog_posts" := [] ]};
     fault := λ _, Healthy; latency := λ _, 1%nat |}.

Definition example_host : Host :=
  {| host_supabase := remote_client example_remote;
     host_now := example_now;
     host_zone := UTC_zone;
     host_toLocaleDateString := fr_FR_UTC |}.

(** The example form with another identifier typed in. *)
Definition example_renamed_form : SectorFormData.t :=
  {| SectorFormData.id := JStr "finance";
     SectorFormData.title := JStr "Finance";
     SectorFormData.description := SectorFormData.description example_form;
     SectorFormData.services := SectorFormData.services example_form;
     SectorFormData.icon := SectorFormData.icon example_form;
     SectorFormData.image := SectorFormData.image example_form;
     SectorFormData.hero_title := SectorFormData.hero_title example_form;
     SectorFormData.hero_subtitle := SectorFormData.hero_subtitle example_form;
     SectorFormData.modal_description :=
       SectorFormData.modal_description example_form;
     SectorFormData.highlights := SectorFormData.highlights example_form;
     SectorFormData.tech_stack := SectorFormData.tech_stack example_form;
     SectorFormData.case_study_title :=
       SectorFormData.case_study_title example_form;
     SectorFormData.case_study_results :=
       SectorFormData.case_study_results example_form;
     SectorFormData.cta_text := SectorFormData.cta_text example_form |}.

Definition example_sector : Sector.t := Sectors.build_sectorData example_form.

Definition example_other_sector : Sector.t :=
  Sectors.build_sectorData example_renamed_form.

(** A loaded list of two sectors. *)
Definition example_loaded : SectorsView.SectorsQuery :=
  {| SectorsView.sectors := Some [example_sector; example_other_sector];
     SectorsView.isLoading := false;
     SectorsView.load_error := None |}.

Definition example_idle : SectorsView.Pending :=
  {| SectorsView.createPending := false;
     SectorsView.updatePending := false;
     SectorsView.deletePending := false |}.

(* ===================================================================== *)
(** * Checks on concrete inputs *)
(* ===================================================================== *)

Example fr_FR_UTC_epoch : fr_FR_UTC 0 = "01/01/1970".
Proof. vm_compute. reflexivity. Qed.

Example fr_FR_UTC_now : fr_FR_UTC example_now = "02/11/2026".
Proof. vm_compute. reflexivity. Qed.

Example fr_FR_UTC_leap : fr_FR_UTC (19782 * msPerDay + 5) = "29/02/2024".
Proof. vm_compute. reflexivity. Qed.

Example recent_contacts_offline :
  getRecentContacts (remote_client example_offline) None [] =
  (Fulfilled [],
   [("Erreur lors de la récupération des contacts récents:", network_down)]).
Proof. vm_compute. reflexivity. Qed.

Example dashboard_counts_example :
  (getDashboardStats (remote_client example_remote) []).1 =
  Fulfilled {| contactsCount := 4; projectsCount := 1; blogPostsCount := 0;
               servicesCount := 0; sectorsCount := 0;
               navigationItemsCount := 0; skillsCount := 0;
               chatbotKnowledgeCount := 0 |}.
Proof. vm_compute. reflexivity. Qed.

Example evolution_example :
  match getStatsEvolution fr_FR_UTC UTC_zone example_now (remote_client example_remote) [] with
  | (Fulfilled ev, _) =>
      map_to_list (contacts ev) = [("30/10/2026", 1); ("01/11/2026", 2)] ∧
      map_to_list (projects ev) = [("31/10/2026", 1)] ∧
      map_to_list (blogPosts ev) = []
  | _ => False
  end.
Proof. vm_compute. repeat split; reflexivity. Qed.

Example dashboard_null_count_example :
  (getDashboardStats example_counts []).1 =
  Fulfilled {| contactsCount := 0; projectsCount := 3; blogPostsCount := 0;
               servicesCount := 0; sectorsCount := 0;
               navigationItemsCount := 0; skillsCount := 0;
               chatbotKnowledgeCount := 0 |}.
Proof. vm_compute. reflexivity. Qed.

Example submit_duplicate_example :
  Sectors.run example_creating
    (Sectors.handleSubmit (example_hooks_failing unique_violation)
       example_creating example_form) =
  (Fulfilled (),
   {| Sectors.state := example_creating;
      Sectors.trace :=
        [ Sectors.CreateCalled (Sectors.build_sectorData example_form);
          Sectors.ConsoleError "Erreur lors de la sauvegarde du secteur:"
            unique_violation;
          Sectors.ToastError "Un secteur avec cet ID existe déjà." ] |}).
Proof. vm_compute. reflexivity. Qed.

Example delete_rejected_example :
  Sectors.run example_deleting
    (Sectors.handleConfirmDelete (example_hooks_failing network_down)
       example_deleting) =
  (Fulfilled (),
   {| Sectors.state := example_deleting;
      Sectors.trace :=
        [ Sectors.DeleteCalled (JStr "fintech");
          Sectors.ConsoleError "Erreur lors de la suppression du secteur:"
            network_down;
          Sectors.ToastError "Erreur lors de la suppression du secteur." ] |}).
Proof. vm_compute. reflexivity. Qed.

(* ===================================================================== *)
(** * The Sectors page: submit and delete *)
(* ===================================================================== *)

Section SectorsPage.

Import Sectors.

Lemma strict_eq_string_true (v : Json) (s : string) :
  strict_eq_string v s = true ↔ v = JStr s.
Proof.
  destruct v; simpl; try (split; [discriminate | discriminate]).
  rewrite bool_decide_eq_true. split; [intros ->; reflexivity | congruence].
Qed.

Lemma strict_eq_string_false (v : Json) (s : string) :
  strict_eq_string v s = false ↔ v ≠ JStr s.
Proof.
  rewrite <- strict_eq_string_true. destruct (strict_eq_string v s); split;
    congruence.
Qed.

Ltac run_handler :=
  unfold run, handleSubmit, handleConfirmDelete, submitted, try_catch, bind,
    mutateAsync, await, toast_success, toast_error, console_error,
    setIsModalOpen, setIsDeleteModalOpen, setEditingSector, setDeletingSector,
    set_state, emit, modify, ret in *;
  simpl in *.

(** C4. In create mode (no sector being edited), whatever the form holds
    and whatever the backend answers, [handleSubmit] makes exactly one
    mutation call, the creation of a document whose nested
    [content_modal.case_study] is [{title, results}] with [title] the
    form's [case_study_title] and [results] the form's
    [case_study_results]. *)
Theorem create_submits_nested_case_study
    (hooks : Mutations) (render : PageState) (formData : SectorFormData.t) :
  editingSector render = None →
  ∃ doc,
    requests (trace (run render (handleSubmit hooks render formData)).2)
      = [CreateCalled doc]
    ∧ ContentModal.case_study (Sector.content_modal doc)
      = {| CaseStudy.title := SectorFormData.case_study_title formData;
           CaseStudy.results := SectorFormData.case_study_results formData |}.
Proof.
  intros Hcreate. exists (build_sectorData formData).
  split; [| reflexivity].
  run_handler. rewrite Hcreate. simpl.
  destruct (outcome (createMutation hooks (build_sectorData formData)))
    as [[] | e]; simpl.
  - reflexivity.
  - destruct (strict_eq_string (code e) "23505"); reflexivity.
Qed.

Lemma create_submits_nested_case_study_witness :
  ∃ doc,
    requests (trace (run example_creating
                       (handleSubmit example_hooks_ok example_creating
                          example_form)).2)
      = [CreateCalled doc]
    ∧ ContentModal.case_study (Sector.content_modal doc)
      = {| CaseStudy.title := JStr "Neo bank";
           CaseStudy.results := JArr [JStr "+30%"] |}.
Proof.
  apply (create_submits_nested_case_study example_hooks_ok example_creating
           example_form).
  reflexivity.
Defined.

(** C6. A create submission that fails with the unique-constraint code
    ["23505"] shows the duplicate-identifier message and nothing else; a
    create submission that fails with any other error shows the generic
    create-failure message and nothing else. *)
Theorem create_failure_message
    (hooks : Mutations) (render : PageState) (formData : SectorFormData.t)
    (e : JsError) :
  editingSector render = None →
  outcome (createMutation hooks (build_sectorData formData)) = Rejected e →
  let shown :=
    notifications (trace (run render (handleSubmit hooks render formData)).2) in
  (code e = JStr "23505" →
     shown = [ToastError "Un secteur avec cet ID existe déjà."])
  ∧ (code e ≠ JStr "23505" →
     shown = [ToastError "Erreur lors de la création du secteur."]).
Proof.
  intros Hcreate Hrej shown. subst shown.
  run_handler. rewrite Hcreate. simpl. rewrite Hrej. simpl.
  split; intros Hcode.
  - apply strict_eq_string_true in Hcode. rewrite Hcode. reflexivity.
  - apply strict_eq_string_false in Hcode. rewrite Hcode. reflexivity.
Qed.

Lemma create_failure_message_witness :
  notifications
    (trace (run example_creating
              (handleSubmit (example_hooks_failing unique_violation)
                 example_creating example_form)).2)
    = [ToastError "Un secteur avec cet ID existe déjà."]
  ∧ notifications
      (trace (run example_creating
                (handleSubmit (example_hooks_failing network_down)
                   example_creating example_form)).2)
    = [ToastError "Erreur lors de la création du secteur."].
Proof.
  split.
  - apply (create_failure_message (example_hooks_failing unique_violation)
             example_creating example_form unique_violation);
      reflexivity.
  - apply (create_failure_message (example_hooks_failing network_down)
             example_creating example_form network_down);
      [reflexivity | reflexivity | discriminate].
Defined.

(** C7. Every submit of the create/edit modal ends in one of two ways.
    If the awaited mutation succeeds, one notification is shown, a success
    notification, the modal is closed and the edit target is cleared.  If
    it fails, the state is left as it was (the modal stays open, the edit
    target is unchanged) and one notification is shown, an error
    notification. *)
Theorem submit_outcome_transitions
    (hooks : Mutations) (render : PageState) (formData : SectorFormData.t) :
  let w := (run render (handleSubmit hooks render formData)).2 in
  (outcome (submitted hooks render formData) = Fulfilled () →
     (∃ msg, notifications (trace w) = [ToastSuccess msg])
     ∧ isModalOpen (state w) = false
     ∧ editingSector (state w) = None)
  ∧ (∀ e, outcome (submitted hooks render formData) = Rejected e →
     state w = render
     ∧ isModalOpen (state w) = isModalOpen render
     ∧ editingSector (state w) = editingSector render
     ∧ ∃ msg, notifications (trace w) = [ToastError msg]).
Proof.
  intros w. subst w. split.
  - intros Hok. run_handler.
    destruct (editingSector render) as [editing |]; simpl in *;
      rewrite Hok; simpl; eauto.
  - intros e Hrej. run_handler.
    destruct (editingSector render) as [editing |] eqn:Hedit; simpl in *;
      rewrite Hrej; simpl;
      destruct (strict_eq_string (code e) "23505"); simpl;
      rewrite ?Hedit; eauto 10.
Qed.

Lemma submit_outcome_transitions_witness :
  (∃ msg,
     notifications
       (trace (run example_editing
                 (handleSubmit example_hooks_ok example_editing
                    example_form)).2) = [ToastSuccess msg])
  ∧ state (run example_creating
             (handleSubmit (example_hooks_failing network_down)
                example_creating example_form)).2 = example_creating.
Proof.
  split.
  - apply (submit_outcome_transitions example_hooks_ok example_editing
             example_form).
    reflexivity.
  - apply (submit_outcome_transitions (example_hooks_failing network_down)
             example_creating example_form) with (e := network_down).
    reflexivity.
Defined.

(** C8. For a confirmed delete with a target set: if the backend call
    rejects, the state is left exactly as it was (the delete target is not
    cleared, the open flag of the confirmation modal is not changed) and
    the only notification is the delete-failure one; if the call succeeds,
    the confirmation modal is closed, the target is cleared and the only
    notification is the delete-success one. *)
Theorem confirm_delete_outcomes
    (hooks : Mutations) (render : PageState) (deleting : Sector.t) :
  deletingSector render = Some deleting →
  let w := (run render (handleConfirmDelete hooks render)).2 in
  (∀ e, outcome (deleteMutation hooks (Sector.id deleting)) = Rejected e →
     state w = render
     ∧ deletingSector (state w) = Some deleting
     ∧ isDeleteModalOpen (state w) = isDeleteModalOpen render
     ∧ notifications (trace w)
       = [ToastError "Erreur lors de la suppression du secteur."])
  ∧ (outcome (deleteMutation hooks (Sector.id deleting)) = Fulfilled () →
     isDeleteModalOpen (state w) = false
     ∧ deletingSector (state w) = None
     ∧ isModalOpen (state w) = isModalOpen render
     ∧ editingSector (state w) = editingSector render
     ∧ notifications (trace w)
       = [ToastSuccess "Secteur supprimé avec succès !"]).
Proof.
  intros Htarget w. subst w. run_handler. rewrite Htarget. simpl. split.
  - intros e Hrej. rewrite Hrej. simpl. rewrite Htarget. auto.
  - intros Hok. rewrite Hok. simpl. auto.
Qed.

Lemma confirm_delete_outcomes_witness :
  state (run example_deleting
           (handleConfirmDelete (example_hooks_failing network_down)
              example_deleting)).2 = example_deleting
  ∧ deletingSector
      (state (run example_deleting
                (handleConfirmDelete example_hooks_ok example_deleting)).2)
    = None.
Proof.
  split.
  - apply (confirm_delete_outcomes (example_hooks_failing network_down)
             example_deleting (build_sectorData example_form) eq_refl)
      with (e := network_down).
    reflexivity.
  - apply (confirm_delete_outcomes example_hooks_ok example_deleting
             (build_sectorData example_form) eq_refl).
    reflexivity.
Defined.

(** C10. The check of the error code comes before the choice between the
    create and the update wording, so it applies in edit mode too: an
    update that fails with the unique-constraint code ["23505"] shows the
    duplicate-identifier message, and not the generic update-failure
    message. *)
Theorem update_unique_violation_message
    (hooks : Mutations) (render : PageState) (editing : Sector.t)
    (formData : SectorFormData.t) (e : JsError) :
  editingSector render = Some editing →
  outcome (updateMutation hooks
             {| upd_id := Sector.id editing;
                upd_data := build_sectorData formData |}) = Rejected e →
  code e = JStr "23505" →
  let shown :=
    notifications (trace (run render (handleSubmit hooks render formData)).2) in
  shown = [ToastError "Un secteur avec cet ID existe déjà."]
  ∧ ToastError "Erreur lors de la mise à jour du secteur." ∉ shown.
Proof.
  intros Hedit Hrej Hcode shown. subst shown.
  run_handler. rewrite Hedit. simpl. rewrite Hrej. simpl.
  apply strict_eq_string_true in Hcode. rewrite Hcode. simpl.
  split; [reflexivity |].
  intros Hin. apply list_elem_of_singleton in Hin. discriminate Hin.
Qed.

Lemma update_unique_violation_message_witness :
  notifications
    (trace (run example_editing
              (handleSubmit (example_hooks_failing unique_violation)
                 example_editing example_form)).2)
  = [ToastError "Un secteur avec cet ID existe déjà."].
Proof.
  apply (update_unique_violation_message
           (example_hooks_failing unique_violation) example_editing
           (build_sectorData example_form) example_form unique_violation);
    reflexivity.
Defined.

End SectorsPage.

(* ===================================================================== *)
(** * Promise.all *)
(* ===================================================================== *)

Section PromiseAll.

Context {A : Type}.
Implicit Types (ps : list (Promise A)) (vs : list A).

Lemma first_rejection_Some ps t e :
  first_rejection ps = Some (t, e) →
  ∃ p, p ∈ ps ∧ outcome p = Rejected e.
Proof.
  revert t e. induction ps as [| p ps IH]; intros t e; simpl; [discriminate |].
  destruct (outcome p) as [a | e0] eqn:Hp.
  - intros H. destruct (IH _ _ H) as (p' & Hin & Hp').
    exists p'. split; [right; exact Hin | exact Hp'].
  - destruct (first_rejection ps) as [[t' e'] |] eqn:Hrest.
    + destruct (t' <? settles_at p)%nat; intros [= <- <-].
      * destruct (IH _ _ eq_refl) as (p' & Hin & Hp').
        exists p'. split; [right; exact Hin | exact Hp'].
      * exists p. split; [left | exact Hp].
    + intros [= <- <-]. exists p. split; [left | exact Hp].
Qed.

Lemma first_rejection_None ps :
  first_rejection ps = None →
  Forall2 (λ p v, outcome p = Fulfilled v) ps (fulfilled_values ps).
Proof.
  induction ps as [| p ps IH]; simpl; [constructor |].
  destruct (outcome p) as [a | e0] eqn:Hp.
  - intros H. constructor; [exact Hp | exact (IH H)].
  - destruct (first_rejection ps) as [[t' e'] |];
      [destruct (t' <? settles_at p)%nat |]; discriminate.
Qed.

Lemma first_rejection_fulfilled ps vs :
  Forall2 (λ p v, outcome p = Fulfilled v) ps vs →
  first_rejection ps = None ∧ fulfilled_values ps = vs.
Proof.
  induction 1 as [| p v ps vs Hp _ [IH1 IH2]]; simpl; [split; reflexivity |].
  rewrite Hp, IH1, IH2. split; reflexivity.
Qed.

(** [Promise.all] either fulfils, every input having fulfilled, with the
    values in order, or rejects with the reason of an input that rejected. *)
Lemma Promise_all_cases ps :
  (∃ vs, outcome (Promise_all ps) = Fulfilled vs
         ∧ Forall2 (λ p v, outcome p = Fulfilled v) ps vs)
  ∨ (∃ p e, p ∈ ps ∧ outcome p = Rejected e
            ∧ outcome (Promise_all ps) = Rejected e).
Proof.
  unfold Promise_all.
  destruct (first_rejection ps) as [[t e] |] eqn:Hfirst.
  - right. destruct (first_rejection_Some _ _ _ Hfirst) as (p & Hin & Hp).
    exists p, e. auto.
  - left. exists (fulfilled_values ps). split; [reflexivity |].
    apply first_rejection_None, Hfirst.
Qed.

Lemma Promise_all_fulfilled ps vs :
  Forall2 (λ p v, outcome p = Fulfilled v) ps vs →
  outcome (Promise_all ps) = Fulfilled vs.
Proof.
  intros H. apply first_rejection_fulfilled in H as [H1 H2].
  unfold Promise_all. rewrite H1, H2. reflexivity.
Qed.

Lemma Promise_all_rejected ps p :
  p ∈ ps → rejects p → ∃ e, outcome (Promise_all ps) = Rejected e.
Proof.
  intros Hin Hrej. destruct (Promise_all_cases ps) as
    [(vs & _ & Hall) | (p' & e & _ & _ & Hout)]; [| eauto].
  exfalso. apply list_elem_of_lookup in Hin as [i Hi].
  destruct (Forall2_lookup_l _ _ _ _ _ Hall Hi) as (v & _ & Hv).
  unfold rejects in Hrej. rewrite Hv in Hrej. exact Hrej.
Qed.

End PromiseAll.

(* ===================================================================== *)
(** * The dashboard counts *)
(* ===================================================================== *)

Lemma or_zero_nullish (x : Nullish Z) :
  (x = Null ∨ x = Undefined → or_zero x = 0)
  ∧ (∀ n, x = Val n → or_zero x = n).
Proof.
  split.
  - intros [-> | ->]; reflexivity.
  - intros n ->. simpl. destruct (Z.eqb_spec n 0); congruence.
Qed.

(** When the eight counting queries fulfil, [getDashboardStats] returns,
    without logging, the record of their counts with [|| 0] applied. *)
Lemma getDashboardStats_fulfilled
    (supabase : Client) (log : Console) (rs : EntityKind → Response) :
  (∀ k, outcome (supabase (count_query k)) = Fulfilled (rs k)) →
  getDashboardStats supabase log =
  (Fulfilled
     {| contactsCount := or_zero (count (rs Contact));
        projectsCount := or_zero (count (rs Project));
        blogPostsCount := or_zero (count (rs BlogPost));
        servicesCount := or_zero (count (rs Service));
        sectorsCount := or_zero (count (rs SectorKind));
        navigationItemsCount := or_zero (count (rs NavigationItem));
        skillsCount := or_zero (count (rs Skill));
        chatbotKnowledgeCount := or_zero (count (rs ChatbotKnowledge)) |},
   log).
Proof.
  intros H. unfold getDashboardStats, try_catch, bind, await.
  rewrite (Promise_all_fulfilled _
             [rs Contact; rs Project; rs BlogPost; rs Service; rs SectorKind;
              rs NavigationItem; rs Skill; rs ChatbotKnowledge]);
    [reflexivity |].
  repeat first [ apply Forall2_nil_2 | apply Forall2_cons_2 ].
  - exact (H Contact).
  - exact (H Project).
  - exact (H BlogPost).
  - exact (H Service).
  - exact (H SectorKind).
  - exact (H NavigationItem).
  - exact (H Skill).
  - exact (H ChatbotKnowledge).
Qed.

(** By contrast with the best-effort readers, the aggregate fails as a
    whole: when one counting query rejects, [getDashboardStats] logs and
    raises again. *)
Lemma getDashboardStats_reraises
    (supabase : Client) (log : Console) (k : EntityKind) :
  rejects (supabase (count_query k)) →
  ∃ e,
    getDashboardStats supabase log =
    (Rejected e,
     log ++ [("Erreur lors de la récupération des statistiques:", e)]).
Proof.
  intros Hrej. unfold getDashboardStats, try_catch, bind, await.
  match goal with
  | |- context [outcome (Promise_all ?ps)] =>
      destruct (Promise_all_rejected ps (supabase (count_query k)))
        as [e Hout]; [| exact Hrej | rewrite Hout]
  end.
  - destruct k; set_solver.
  - exists e. reflexivity.
Qed.

(** C1. Whatever the eight counting queries resolve to, as long as each
    count is [null], [undefined] or a non-negative integer,
    [getDashboardStats] returns a record with its eight counts, each a
    non-negative integer: the count received when there is one, and [0]
    when it is [null] or [undefined]. *)
Theorem getDashboardStats_counts
    (supabase : Client) (log : Console) (rs : EntityKind → Response) :
  (∀ k, outcome (supabase (count_query k)) = Fulfilled (rs k)) →
  (∀ k n, count (rs k) = Val n → 0 ≤ n) →
  ∃ stats,
    getDashboardStats supabase log = (Fulfilled stats, log)
    ∧ ∀ k,
        0 ≤ stat k stats
        ∧ (count (rs k) = Null ∨ count (rs k) = Undefined → stat k stats = 0)
        ∧ (∀ n, count (rs k) = Val n → stat k stats = n).
Proof.
  intros Hall Hwf. eexists. split; [apply getDashboardStats_fulfilled, Hall |].
  intros k.
  assert (Hk : stat k
    {| contactsCount := or_zero (count (rs Contact));
       projectsCount := or_zero (count (rs Project));
       blogPostsCount := or_zero (count (rs BlogPost));
       servicesCount := or_zero (count (rs Service));
       sectorsCount := or_zero (count (rs SectorKind));
       navigationItemsCount := or_zero (count (rs NavigationItem));
       skillsCount := or_zero (count (rs Skill));
       chatbotKnowledgeCount := or_zero (count (rs ChatbotKnowledge)) |}
    = or_zero (count (rs k))) by (destruct k; reflexivity).
  rewrite Hk. clear Hk.
  destruct (or_zero_nullish (count (rs k))) as [Hnull Hval].
  split; [| split; [exact Hnull | exact Hval]].
  destruct (count (rs k)) as [| | n] eqn:Hc; simpl; [lia | lia |].
  specialize (Hwf k n Hc). destruct (n =? 0); lia.
Qed.

Lemma getDashboardStats_counts_witness :
  ∃ stats,
    getDashboardStats (remote_client example_remote) [] = (Fulfilled stats, [])
    ∧ stat Contact stats = 4
    ∧ stat Service stats = 0.
Proof.
  destruct (getDashboardStats_counts (remote_client example_remote) []
              (λ k, run_query example_tables (count_query k)))
    as (stats & Hrun & Hstats).
  - intros k. reflexivity.
  - intros k n. destruct k; vm_compute; intros [= <-]; discriminate.
  - exists stats. split; [exact Hrun |]. split.
    + destruct (Hstats Contact) as (_ & _ & Hval). apply Hval. reflexivity.
    + destruct (Hstats Service) as (_ & Hnull & _). apply Hnull. left.
      reflexivity.
Defined.

Lemma first_rejection_without_errors (supabase : Client) (qs : list Query) :
  first_rejection (without_errors supabase <$> qs)
  = first_rejection (supabase <$> qs).
Proof.
  induction qs as [| q qs IH]; [reflexivity |].
  rewrite !fmap_cons. cbn [first_rejection]. rewrite IH.
  unfold without_errors at 1 2 3. cbn [outcome settles_at].
  destruct (outcome (supabase q)); reflexivity.
Qed.

Lemma fulfilled_values_without_errors (supabase : Client) (qs : list Query) :
  fulfilled_values (without_errors supabase <$> qs)
  = clear_error <$> fulfilled_values (supabase <$> qs).
Proof.
  induction qs as [| q qs IH]; [reflexivity |].
  rewrite !fmap_cons. cbn [fulfilled_values]. rewrite IH.
  unfold without_errors at 1. cbn [outcome].
  destruct (outcome (supabase q)); reflexivity.
Qed.

(** Clearing the [error] fields changes neither which promise rejects
    first nor, up to that clearing, the values collected. *)
Lemma Promise_all_without_errors (supabase : Client) (qs : list Query) :
  outcome (Promise_all (without_errors supabase <$> qs)) =
  match outcome (Promise_all (supabase <$> qs)) with
  | Fulfilled vs => Fulfilled (clear_error <$> vs)
  | Rejected e => Rejected e
  end.
Proof.
  unfold Promise_all.
  rewrite first_rejection_without_errors, fulfilled_values_without_errors.
  destruct (first_rejection (supabase <$> qs)) as [[t e] |]; reflexivity.
Qed.

(** [getDashboardStats] never reads the [error] field of a response. *)
Lemma getDashboardStats_without_errors (supabase : Client) (log : Console) :
  getDashboardStats (without_errors supabase) log
  = getDashboardStats supabase log.
Proof.
  unfold getDashboardStats, try_catch, bind, await.
  pose proof (Promise_all_without_errors supabase
    [ select_count_head ["id"] (from "contact");
      select_count_head ["id"] (from "projects");
      select_count_head ["id"] (from "blog_posts");
      select_count_head ["id"] (from "services");
      select_count_head ["id"] (from "sectors");
      select_count_head ["id"] (from "navigation");
      select_count_head ["id"] (from "skills");
      select_count_head ["id"] (from "chatbot_knowledge") ]) as Hall.
  cbn [fmap list_fmap] in Hall. rewrite Hall. clear Hall.
  match goal with
  | |- context [outcome (Promise_all ?ps)] =>
      destruct (outcome (Promise_all ps)) as [vs | e]
  end; [| reflexivity].
  do 9 (destruct vs as [| ? vs]; [reflexivity |]). reflexivity.
Qed.

(** C9. If the eight counting queries all fulfil and one of them carries
    an error together with a [null] count, [getDashboardStats] still
    returns its record, logs nothing, and reports [0] for that entity
    kind.  The [error] field of a fulfilled result is never read: clearing
    it in every response changes nothing. *)
Theorem getDashboardStats_ignores_result_errors
    (supabase : Client) (log : Console) (rs : EntityKind → Response)
    (k : EntityKind) (e : JsError) :
  (∀ k', outcome (supabase (count_query k')) = Fulfilled (rs k')) →
  error (rs k) = Some e →
  count (rs k) = Null →
  (∃ stats,
     getDashboardStats supabase log = (Fulfilled stats, log)
     ∧ stat k stats = 0)
  ∧ getDashboardStats (without_errors supabase) log
    = getDashboardStats supabase log.
Proof.
  intros Hall _ Hnull. split; [| apply getDashboardStats_without_errors].
  eexists. split; [apply getDashboardStats_fulfilled, Hall |].
  destruct k; simpl; rewrite Hnull; reflexivity.
Qed.

Lemma getDashboardStats_ignores_result_errors_witness :
  ∃ stats,
    getDashboardStats (remote_client example_remote) [] = (Fulfilled stats, [])
    ∧ stat Skill stats = 0.
Proof.
  apply (getDashboardStats_ignores_result_errors
           (remote_client example_remote) []
           (λ k, run_query example_tables (count_query k)) Skill
           (backend_error "42P01" "relation does not exist")).
  - intros k. reflexivity.
  - reflexivity.
  - reflexivity.
Defined.

(* ===================================================================== *)
(** * The best-effort readers *)
(* ===================================================================== *)

Lemma recent_result_fails (p : Promise Response) :
  query_fails p → recent_result p = [].
Proof.
  unfold query_fails, recent_result.
  destruct (outcome p) as [r | e]; [| reflexivity].
  intros [e He]. rewrite He. reflexivity.
Qed.

Ltac run_reader :=
  unfold getRecentContacts, getRecentProjects, getRecentBlogPosts,
    recent_result, recent_query, contact_columns, project_columns,
    blog_post_columns, try_catch, bind, await, console_error, modify, ret,
    throw;
  cbn beta zeta.

Lemma getRecentContacts_returns supabase limit_arg log :
  ∃ log',
    getRecentContacts supabase limit_arg log =
    (Fulfilled
       (recent_result
          (supabase (recent_query "contact" contact_columns
                       (default_param 5 limit_arg)))),
     log').
Proof.
  run_reader.
  match goal with |- context [outcome ?p] => destruct (outcome p) as [r | e] end;
    [destruct (error r) |]; eauto.
Qed.

Lemma getRecentProjects_returns supabase limit_arg log :
  ∃ log',
    getRecentProjects supabase limit_arg log =
    (Fulfilled
       (recent_result
          (supabase (recent_query "projects" project_columns
                       (default_param 5 limit_arg)))),
     log').
Proof.
  run_reader.
  match goal with |- context [outcome ?p] => destruct (outcome p) as [r | e] end;
    [destruct (error r) |]; eauto.
Qed.

Lemma getRecentBlogPosts_returns supabase limit_arg log :
  ∃ log',
    getRecentBlogPosts supabase limit_arg log =
    (Fulfilled
       (recent_result
          (supabase (recent_query "blog_posts" blog_post_columns
                       (default_param 5 limit_arg)))),
     log').
Proof.
  run_reader.
  match goal with |- context [outcome ?p] => destruct (outcome p) as [r | e] end;
    [destruct (error r) |]; eauto.
Qed.

(** [getStatsEvolution] always returns: the three histograms of the rows
    received when the three queries fulfil, three empty maps (and a line
    on the console) when one of them rejects. *)
Lemma getStatsEvolution_cases
    (toLocaleDateString : Z → string) (zone : TimeZone) (now : Z) (supabase : Client)
    (log : Console) :
  (∃ r1 r2 r3,
     outcome (supabase (evolution_query zone now "contact")) = Fulfilled r1
     ∧ outcome (supabase (evolution_query zone now "projects")) = Fulfilled r2
     ∧ outcome (supabase (evolution_query zone now "blog_posts")) = Fulfilled r3
     ∧ getStatsEvolution toLocaleDateString zone now supabase log =
       (Fulfilled
          {| contacts := groupByDay toLocaleDateString (or_empty (data r1));
             projects := groupByDay toLocaleDateString (or_empty (data r2));
             blogPosts := groupByDay toLocaleDateString (or_empty (data r3)) |},
        log))
  ∨ (∃ table e,
       table ∈ ["contact"; "projects"; "blog_posts"]
       ∧ outcome (supabase (evolution_query zone now table)) = Rejected e
       ∧ getStatsEvolution toLocaleDateString zone now supabase log =
         (Fulfilled no_evolution,
          log ++ [("Erreur lors de la récupération de l'évolution:", e)])).
Proof.
  unfold getStatsEvolution, try_catch, bind, await.
  match goal with
  | |- context [outcome (Promise_all ?ps)] =>
      destruct (Promise_all_cases ps) as
        [(vs & Hout & Hall) | (p & e & Hin & Hp & Hout)]; rewrite Hout
  end.
  - left.
    apply Forall2_cons_inv_l in Hall as (r1 & vs1 & H1 & Hall & ->).
    apply Forall2_cons_inv_l in Hall as (r2 & vs2 & H2 & Hall & ->).
    apply Forall2_cons_inv_l in Hall as (r3 & vs3 & H3 & Hall & ->).
    apply Forall2_nil_inv_l in Hall as ->.
    exists r1, r2, r3. auto.
  - right.
    assert (Htable : ∃ table, table ∈ ["contact"; "projects"; "blog_posts"]
                              ∧ p = supabase (evolution_query zone now table)).
    { repeat (apply elem_of_cons in Hin as [-> | Hin]);
        [exists "contact" | exists "projects" | exists "blog_posts" |
         apply elem_of_nil in Hin; destruct Hin];
        (split; [set_solver | reflexivity]). }
    destruct Htable as (table & Htable & ->).
    exists table, e. auto.
Qed.

(** C2. The best-effort readers never raise, whatever their queries
    settle to.  [getRecentContacts], [getRecentProjects] and
    [getRecentBlogPosts] always return a list, the empty one when the
    query fails (its promise rejects or its response carries an error);
    [getStatsEvolution] always returns three maps, all three empty when
    a query of its batch rejects. *)
Theorem best_effort_readers_never_raise
    (toLocaleDateString : Z → string) (zone : TimeZone) (now : Z)
    (supabase : Client) (limit_arg : option Z) (log : Console) :
  (∃ rows log',
     getRecentContacts supabase limit_arg log = (Fulfilled rows, log')
     ∧ (query_fails (supabase (recent_query "contact" contact_columns
                                 (default_param 5 limit_arg)))
        → rows = []))
  ∧ (∃ rows log',
       getRecentProjects supabase limit_arg log = (Fulfilled rows, log')
       ∧ (query_fails (supabase (recent_query "projects" project_columns
                                   (default_param 5 limit_arg)))
          → rows = []))
  ∧ (∃ rows log',
       getRecentBlogPosts supabase limit_arg log = (Fulfilled rows, log')
       ∧ (query_fails (supabase (recent_query "blog_posts" blog_post_columns
                                   (default_param 5 limit_arg)))
          → rows = []))
  ∧ (∃ ev log',
       getStatsEvolution toLocaleDateString zone now supabase log
         = (Fulfilled ev, log')
       ∧ ((∃ table, table ∈ ["contact"; "projects"; "blog_posts"]
                    ∧ rejects (supabase (evolution_query zone now table)))
          → contacts ev = ∅ ∧ projects ev = ∅ ∧ blogPosts ev = ∅)).
Proof.
  repeat split.
  - destruct (getRecentContacts_returns supabase limit_arg log) as [log' H].
    eauto using recent_result_fails.
  - destruct (getRecentProjects_returns supabase limit_arg log) as [log' H].
    eauto using recent_result_fails.
  - destruct (getRecentBlogPosts_returns supabase limit_arg log) as [log' H].
    eauto using recent_result_fails.
  - destruct (getStatsEvolution_cases toLocaleDateString zone now supabase log)
      as [(r1 & r2 & r3 & H1 & H2 & H3 & Hrun) | (table & e & _ & _ & Hrun)].
    + eexists _, _. split; [exact Hrun |].
      intros (table & Hin & Hrej). exfalso. unfold rejects in Hrej.
      repeat (apply elem_of_cons in Hin as [-> | Hin]);
        [rewrite H1 in Hrej | rewrite H2 in Hrej | rewrite H3 in Hrej |
         apply elem_of_nil in Hin]; assumption.
    + eexists _, _. split; [exact Hrun |]. intros _. auto.
Qed.

(* ===================================================================== *)
(** * Recent items: limit and order *)
(* ===================================================================== *)

#[global] Instance newest_first_trans : Transitive newest_first.
Proof. unfold newest_first. intros a b c Hab Hbc. lia. Qed.

#[global] Instance newest_first_total : Total newest_first.
Proof. unfold newest_first. intros a b. lia. Qed.

Lemma most_recent_first_nil : most_recent_first [].
Proof. intros i j a b _ Hi. rewrite lookup_nil in Hi. discriminate. Qed.

Lemma StronglySorted_most_recent_first (rows : list Row) :
  StronglySorted newest_first rows → most_recent_first rows.
Proof.
  induction 1 as [| x rows Hsorted IH Hhead]; [apply most_recent_first_nil |].
  intros i j a b Hij Hi Hj.
  destruct i as [| i], j as [| j]; simpl in *.
  - assert (a = b) by congruence. subst. lia.
  - injection Hi as ->. rewrite Forall_forall in Hhead.
    apply Hhead. apply list_elem_of_lookup. eauto.
  - lia.
  - apply (IH i j); [lia | assumption | assumption].
Qed.

Lemma most_recent_first_take (n : nat) (rows : list Row) :
  most_recent_first rows → most_recent_first (take n rows).
Proof.
  intros H i j a b Hij Hi Hj.
  apply lookup_take_Some in Hi as [Hi _].
  apply lookup_take_Some in Hj as [Hj _].
  exact (H i j a b Hij Hi Hj).
Qed.

Lemma most_recent_first_project (cols : list string) (rows : list Row) :
  most_recent_first rows → most_recent_first (project cols <$> rows).
Proof.
  intros H i j a b Hij Hi Hj.
  apply list_lookup_fmap_Some in Hi as (a' & -> & Hi).
  apply list_lookup_fmap_Some in Hj as (b' & -> & Hj).
  exact (H i j a' b' Hij Hi Hj).
Qed.

(** The reference backend caps and orders as it is asked to. *)
Lemma remote_client_respects (r : Remote) :
  respects_limit_and_order (remote_client r).
Proof.
  intros q resp rows Hout Herr Hdata.
  unfold remote_client in Hout. cbn [outcome] in Hout.
  destruct (fault r q); [| | discriminate].
  2: { injection Hout as <-. discriminate Herr. }
  injection Hout as <-.
  unfold run_query in Hdata, Herr.
  destruct (tables r !! q_from q) as [stored |]; [| discriminate].
  cbn zeta in Hdata.
  split.
  - intros n Hlimit Hn. rewrite Hlimit in Hdata.
    repeat case_match; unfold failed in Hdata; cbn [data] in Hdata;
      simplify_eq; rewrite length_fmap, length_take; lia.
  - intros Horder. rewrite Horder in Hdata.
    repeat case_match; unfold failed in Hdata; cbn [data] in Hdata;
      simplify_eq; apply most_recent_first_project;
      try apply most_recent_first_take;
      apply StronglySorted_most_recent_first, StronglySorted_merge_sort; apply _.
Qed.

Lemma recent_result_respects (supabase : Client) (q : Query) (n : Z) :
  respects_limit_and_order supabase →
  q_limit q = Some n → q_order q = Some ("created_at", false) → 0 ≤ n →
  Z.of_nat (length (recent_result (supabase q))) ≤ n
  ∧ most_recent_first (recent_result (supabase q)).
Proof.
  intros Hresp Hlimit Horder Hn. unfold recent_result.
  destruct (outcome (supabase q)) as [resp | e] eqn:Hout;
    [| split; [simpl; lia | apply most_recent_first_nil]].
  destruct (error resp) eqn:Herr;
    [split; [simpl; lia | apply most_recent_first_nil] |].
  destruct (data resp) as [rows |] eqn:Hdata;
    [| split; [simpl; lia | apply most_recent_first_nil]].
  destruct (Hresp q resp rows Hout Herr Hdata) as [Hcap Hsorted].
  simpl. split; [apply (Hcap n Hlimit Hn) | apply (Hsorted Horder)].
Qed.

(** C5. Against a backend that honours the limit and the descending
    order of the queries it answers, and for every limit [n ≥ 0],
    [getRecentContacts], [getRecentProjects] and [getRecentBlogPosts]
    return at most [n] items, most recent first (creation timestamps never
    increase along the list); and, against any backend, a call without a
    limit is the call with limit 5. *)
Theorem recent_readers_capped_and_ordered
    (supabase : Client) (n : Z) (log : Console) :
  respects_limit_and_order supabase →
  0 ≤ n →
  (∃ rows log',
     getRecentContacts supabase (Some n) log = (Fulfilled rows, log')
     ∧ Z.of_nat (length rows) ≤ n ∧ most_recent_first rows)
  ∧ (∃ rows log',
       getRecentProjects supabase (Some n) log = (Fulfilled rows, log')
       ∧ Z.of_nat (length rows) ≤ n ∧ most_recent_first rows)
  ∧ (∃ rows log',
       getRecentBlogPosts supabase (Some n) log = (Fulfilled rows, log')
       ∧ Z.of_nat (length rows) ≤ n ∧ most_recent_first rows)
  ∧ getRecentContacts supabase None log
    = getRecentContacts supabase (Some 5) log
  ∧ getRecentProjects supabase None log
    = getRecentProjects supabase (Some 5) log
  ∧ getRecentBlogPosts supabase None log
    = getRecentBlogPosts supabase (Some 5) log.
Proof.
  intros Hresp Hn.
  split; [| split; [| split; [| repeat split; reflexivity]]].
  - destruct (getRecentContacts_returns supabase (Some n) log) as [log' Hrun].
    eexists _, _. split; [exact Hrun |].
    apply recent_result_respects; auto.
  - destruct (getRecentProjects_returns supabase (Some n) log) as [log' Hrun].
    eexists _, _. split; [exact Hrun |].
    apply recent_result_respects; auto.
  - destruct (getRecentBlogPosts_returns supabase (Some n) log) as [log' Hrun].
    eexists _, _. split; [exact Hrun |].
    apply recent_result_respects; auto.
Qed.

Lemma recent_readers_capped_and_ordered_witness :
  ∃ rows log',
    getRecentContacts (remote_client example_remote) (Some 2) []
      = (Fulfilled rows, log')
    ∧ Z.of_nat (length rows) ≤ 2 ∧ most_recent_first rows.
Proof.
  apply (recent_readers_capped_and_ordered (remote_client example_remote) 2 []).
  - apply remote_client_respects.
  - lia.
Defined.

Example recent_contacts_example :
  (getRecentContacts (remote_client example_remote) (Some 2) []).1 =
  Fulfilled [ project contact_columns
                (example_row (example_now - 1 * msPerDay) "a");
              project contact_columns
                (example_row (example_now - 1 * msPerDay - 5) "c") ].
Proof. vm_compute. reflexivity. Qed.

(* ===================================================================== *)
(** * The 30-day histograms *)
(* ===================================================================== *)

Section Histograms.

Variable toLocaleDateString : Z → string.

Lemma or_zero_property (grouped : gmap string Z) (key : string) :
  or_zero (property grouped key) = default 0 (grouped !! key).
Proof.
  unfold property. destruct (grouped !! key) as [v |]; simpl; [| reflexivity].
  destruct (Z.eqb_spec v 0); congruence.
Qed.

Lemma bucket_total_empty : bucket_total ∅ = 0.
Proof. unfold bucket_total. apply map_fold_empty. Qed.

Lemma bucket_total_insert_fresh (m : gmap string Z) (k : string) (v : Z) :
  m !! k = None → bucket_total (<[k := v]> m) = v + bucket_total m.
Proof.
  intros Hk. unfold bucket_total.
  apply (map_fold_insert_L (λ _ v acc, v + acc)); [| exact Hk].
  intros. lia.
Qed.

Lemma bucket_total_delete (m : gmap string Z) (k : string) (v : Z) :
  m !! k = Some v → bucket_total m = v + bucket_total (delete k m).
Proof.
  intros Hk. unfold bucket_total.
  apply (map_fold_delete_L (λ _ v acc, v + acc)); [| exact Hk].
  intros. lia.
Qed.

(** Counting one more item adds one to the total. *)
Lemma bucket_total_count_item (grouped : gmap string Z) (item : Row) :
  bucket_total ((count_item toLocaleDateString) grouped item) = bucket_total grouped + 1.
Proof.
  unfold count_item. cbn zeta. rewrite or_zero_property.
  set (date := toLocaleDateString (created_at item)).
  destruct (grouped !! date) as [v |] eqn:Hdate; simpl.
  - rewrite <- insert_delete_eq.
    rewrite bucket_total_insert_fresh by apply lookup_delete_eq.
    rewrite (bucket_total_delete grouped date v Hdate). lia.
  - rewrite bucket_total_insert_fresh by exact Hdate. lia.
Qed.

Lemma bucket_total_foldl (data : list Row) (grouped : gmap string Z) :
  bucket_total (foldl (count_item toLocaleDateString) grouped data)
  = bucket_total grouped + Z.of_nat (length data).
Proof.
  revert grouped. induction data as [| item data IH]; intros grouped; simpl.
  - lia.
  - rewrite IH, bucket_total_count_item. lia.
Qed.

(** The buckets sum to the number of items grouped. *)
Lemma bucket_total_groupByDay (data : list Row) :
  bucket_total (groupByDay toLocaleDateString data) = Z.of_nat (length data).
Proof.
  unfold groupByDay.
  rewrite bucket_total_foldl, bucket_total_empty. lia.
Qed.

Lemma lookup_count_item (grouped : gmap string Z) (item : Row) (day : string) :
  (count_item toLocaleDateString) grouped item !! day =
  if decide (toLocaleDateString (created_at item) = day)
  then Some (default 0 (grouped !! day) + 1)
  else grouped !! day.
Proof.
  unfold count_item. cbn zeta. rewrite or_zero_property, lookup_insert.
  destruct (decide (toLocaleDateString (created_at item) = day)) as [-> |];
    reflexivity.
Qed.

Lemma lookup_foldl_count_item
    (data : list Row) (grouped : gmap string Z) (day : string) :
  foldl (count_item toLocaleDateString) grouped data !! day =
  match length (on_day toLocaleDateString day data) with
  | O => grouped !! day
  | S n => Some (default 0 (grouped !! day) + Z.of_nat (S n))
  end.
Proof.
  revert grouped. induction data as [| item data IH]; intros grouped;
    [reflexivity |].
  cbn [foldl]. rewrite IH, lookup_count_item. unfold on_day.
  rewrite filter_cons.
  destruct (decide (toLocaleDateString (created_at item) = day)) as [Hday |];
    [| reflexivity].
  cbn [length].
  destruct (length (filter _ data)); simpl default; f_equal; lia.
Qed.

(** A bucket is present exactly for the days that have items, and it
    holds their number. *)
Lemma lookup_groupByDay (data : list Row) (day : string) :
  groupByDay toLocaleDateString data !! day =
  match length (on_day toLocaleDateString day data) with
  | O => None
  | S n => Some (Z.of_nat (S n))
  end.
Proof.
  unfold groupByDay.
  rewrite lookup_foldl_count_item, lookup_empty.
  destruct (length (on_day toLocaleDateString day data)); [reflexivity |].
  simpl default. f_equal.
Qed.

Lemma groupByDay_bucket (data : list Row) (day : string) (n : Z) :
  groupByDay toLocaleDateString data !! day = Some n →
  1 ≤ n
  ∧ n = Z.of_nat (length (on_day toLocaleDateString day data))
  ∧ ∃ item, item ∈ data ∧ toLocaleDateString (created_at item) = day.
Proof.
  rewrite lookup_groupByDay.
  destruct (on_day toLocaleDateString day data) as [| item items] eqn:Hday; [discriminate |].
  cbn [length]. intros [= <-]. split; [lia |]. split; [reflexivity |].
  exists item.
  assert (Hin : item ∈ on_day toLocaleDateString day data) by (rewrite Hday; left).
  apply list_elem_of_filter in Hin as [Hkey Hin]. auto.
Qed.

(** Only [created_at] is read when grouping. *)
Lemma groupByDay_project (cols : list string) (data : list Row) :
  groupByDay toLocaleDateString (project cols <$> data)
  = groupByDay toLocaleDateString data.
Proof.
  unfold groupByDay. generalize (∅ : gmap string Z).
  induction data as [| item data IH]; intros grouped; [reflexivity |].
  rewrite fmap_cons. cbn [foldl]. rewrite IH. reflexivity.
Qed.

End Histograms.

(** What the reference backend answers to the evolution query of a
    collection: the rows created since the boundary sent, reduced to the
    selected column, unless it answers with an error and no rows. *)
Lemma remote_evolution_rows
    (r : Remote) (zone : TimeZone) (now : Z) (table : string)
    (resp : Response) :
  outcome (remote_client r (evolution_query zone now table)) = Fulfilled resp →
  or_empty (data resp)
    = project ["created_at"]
        <$> created_since (thirtyDaysAgo zone now) (rows_of r table)
  ∨ (or_empty (data resp) = []
     ∧ query_fails (remote_client r (evolution_query zone now table))).
Proof.
  unfold query_fails, remote_client. cbn [outcome].
  destruct (fault r (evolution_query zone now table)) as [| e | e];
    [| | discriminate].
  - intros [= <-]. left.
    unfold run_query, evolution_query, rows_of, created_since.
    cbn [q_from q_gte q_order q_limit q_head_count q_select gte select from].
    destruct (tables r !! table) as [stored |]; [| reflexivity].
    rewrite bool_decide_eq_true_2 by reflexivity. reflexivity.
  - intros [= <-]. right. split; [reflexivity |]. exists e. reflexivity.
Qed.

(** Thirty days before the day of [t], at the time of day of [t], is
    thirty times twenty-four hours before [t]. *)
Lemma MakeDate_thirty_days_back (t : Z) :
  MakeDate (Day t - 30) (TimeWithinDay t) = t - 30 * msPerDay.
Proof.
  unfold MakeDate, Day, TimeWithinDay, msPerDay.
  pose proof (Z.div_mod t 86400000). lia.
Qed.

(** In general the boundary is thirty days of twenty-four hours before
    the call, moved by the change of offset between the two dates. *)
Lemma thirtyDaysAgo_offsets (zone : TimeZone) (now : Z) :
  thirtyDaysAgo zone now =
  now - 30 * 86400000
  + (LocalTZA zone now true
     - LocalTZA zone (LocalTime zone now - 30 * msPerDay) false).
Proof.
  unfold thirtyDaysAgo, UTC. cbn zeta. rewrite MakeDate_thirty_days_back.
  unfold LocalTime, msPerDay. lia.
Qed.

Lemma thirtyDaysAgo_steady (zone : TimeZone) (now : Z) :
  steady_offset zone now → thirtyDaysAgo zone now = now - 30 * 86400000.
Proof.
  intros Hsteady. rewrite thirtyDaysAgo_offsets.
  unfold steady_offset in Hsteady. rewrite Hsteady. lia.
Qed.

Lemma filter_ext_elem_of {A} (P1 P2 : A → Prop)
    `{!∀ x, Decision (P1 x), !∀ x, Decision (P2 x)} (l : list A) :
  (∀ x, x ∈ l → P1 x ↔ P2 x) → filter P1 l = filter P2 l.
Proof.
  induction l as [| x l IH]; intros Hiff; [reflexivity |].
  rewrite !filter_cons.
  rewrite IH by (intros y Hy; apply Hiff; right; exact Hy).
  destruct (decide (P1 x)) as [H1 | H1], (decide (P2 x)) as [H2 | H2];
    try reflexivity; exfalso.
  - apply H2, (Hiff x); [left | exact H1].
  - apply H1, (Hiff x); [left | exact H2].
Qed.

(** On a host with a steady offset, and when nothing is dated after the
    call, the rows the backend keeps are those of the trailing 30-day
    window. *)
Lemma created_since_boundary_trailing
    (r : Remote) (zone : TimeZone) (now : Z) (table : string) :
  steady_offset zone now →
  none_from_the_future r now →
  table ∈ ["contact"; "projects"; "blog_posts"] →
  created_since (thirtyDaysAgo zone now) (rows_of r table)
  = created_in_trailing_30_days now (rows_of r table).
Proof.
  intros Hsteady Hpast Htable.
  unfold created_since, created_in_trailing_30_days.
  rewrite (thirtyDaysAgo_steady zone now Hsteady).
  apply filter_ext_elem_of. intros item Hitem. unfold in_trailing_30_days.
  pose proof (Hpast table Htable item Hitem). lia.
Qed.

Section EvolutionOfKind.

Variable toLocaleDateString : Z → string.
Variable zone : TimeZone.

(** The histogram built from the answer to one evolution query. *)
Lemma histogram_of_answer
    (r : Remote) (now : Z) (table : string) (resp : Response) :
  outcome (remote_client r (evolution_query zone now table)) = Fulfilled resp →
  (∀ day n,
     groupByDay toLocaleDateString (or_empty (data resp)) !! day = Some n →
     1 ≤ n
     ∧ ∃ item, item ∈ created_since (thirtyDaysAgo zone now) (rows_of r table)
               ∧ toLocaleDateString (created_at item) = day)
  ∧ (¬ query_fails (remote_client r (evolution_query zone now table)) →
     bucket_total (groupByDay toLocaleDateString (or_empty (data resp)))
     = Z.of_nat
         (length (created_since (thirtyDaysAgo zone now) (rows_of r table)))).
Proof.
  intros Hout.
  destruct (remote_evolution_rows r zone now table resp Hout)
    as [-> | [-> Hfails]].
  - rewrite groupByDay_project. split.
    + intros day n Hday.
      apply groupByDay_bucket in Hday as (Hn & _ & Hitem). auto.
    + intros _. apply bucket_total_groupByDay.
  - split.
    + intros day n Hday. unfold groupByDay in Hday. simpl in Hday.
      rewrite lookup_empty in Hday. discriminate.
    + intros Hok. destruct (Hok Hfails).
Qed.

(** C3, as amended.  On a host whose offset from UTC is the same thirty
    local days before the call as at the call, and when no item of the
    three collections is dated after the call, for every result of
    [getStatsEvolution] against the reference backend and for each of the
    three kinds: every bucket of the kind's map is the day of an item of
    that kind created within the trailing 30-day window (the thirty days
    of twenty-four hours that end at the call) and counts at least one
    item; and when no query of the batch rejects and the kind's own query
    does not fail, the bucket values of the kind sum to the number of its
    items created within that window. *)
Theorem evolution_histograms (now : Z) (r : Remote) (log : Console) :
  steady_offset zone now →
  none_from_the_future r now →
  ∃ ev log',
    getStatsEvolution toLocaleDateString zone now (remote_client r) log
      = (Fulfilled ev, log')
    ∧ ∀ table hist,
        (table, hist) ∈ [("contact", contacts ev);
                         ("projects", projects ev);
                         ("blog_posts", blogPosts ev)] →
        (∀ day n,
           hist !! day = Some n →
           1 ≤ n
           ∧ ∃ item, item ∈ rows_of r table
                     ∧ in_trailing_30_days now (created_at item)
                     ∧ toLocaleDateString (created_at item) = day)
        ∧ ((∀ t, t ∈ ["contact"; "projects"; "blog_posts"] →
                 ¬ rejects (remote_client r (evolution_query zone now t))) →
           ¬ query_fails (remote_client r (evolution_query zone now table)) →
           bucket_total hist
           = Z.of_nat
               (length (created_in_trailing_30_days now (rows_of r table)))).
Proof.
  intros Hsteady Hpast.
  assert (Hkind : ∀ table resp,
    table ∈ ["contact"; "projects"; "blog_posts"] →
    outcome (remote_client r (evolution_query zone now table))
      = Fulfilled resp →
    (∀ day n,
       groupByDay toLocaleDateString (or_empty (data resp)) !! day = Some n →
       1 ≤ n
       ∧ ∃ item, item ∈ rows_of r table
                 ∧ in_trailing_30_days now (created_at item)
                 ∧ toLocaleDateString (created_at item) = day)
    ∧ (¬ query_fails (remote_client r (evolution_query zone now table)) →
       bucket_total (groupByDay toLocaleDateString (or_empty (data resp)))
       = Z.of_nat
           (length (created_in_trailing_30_days now (rows_of r table))))).
  { intros table resp Htable Hout.
    destruct (histogram_of_answer r now table resp Hout) as [Hkeys Htotal].
    rewrite (created_since_boundary_trailing r zone now table
               Hsteady Hpast Htable) in Hkeys, Htotal.
    split; [| exact Htotal].
    intros day n Hday. destruct (Hkeys day n Hday) as (Hn & item & Hin & Hkey).
    split; [exact Hn |]. exists item.
    apply list_elem_of_filter in Hin as [Hwindow Hin]. auto. }
  destruct (getStatsEvolution_cases toLocaleDateString zone now
              (remote_client r) log)
    as [(r1 & r2 & r3 & H1 & H2 & H3 & Hrun) | (bad & e & Hbad & Hrej & Hrun)];
    eexists _, _; (split; [exact Hrun |]); intros table hist Hin;
    cbn [contacts projects blogPosts no_evolution] in Hin.
  - repeat (apply elem_of_cons in Hin as [[= -> ->] | Hin]);
      [| | | apply elem_of_nil in Hin; destruct Hin].
    + destruct (Hkind "contact" r1) as [Hkeys Htotal];
        [left | exact H1 |]. auto.
    + destruct (Hkind "projects" r2) as [Hkeys Htotal];
        [right; left | exact H2 |]. auto.
    + destruct (Hkind "blog_posts" r3) as [Hkeys Htotal];
        [do 2 right; left | exact H3 |]. auto.
  - assert (Hempty : hist = ∅).
    { repeat (apply elem_of_cons in Hin as [[= -> ->] | Hin]);
        [reflexivity | reflexivity | reflexivity |
         apply elem_of_nil in Hin; destruct Hin]. }
    subst hist. split.
    + intros day n Hday. rewrite lookup_empty in Hday. discriminate.
    + intros Hnone _. exfalso. apply (Hnone bad Hbad).
      unfold rejects. rewrite Hrej. exact I.
Qed.

End EvolutionOfKind.

Lemma example_remote_none_from_the_future :
  none_from_the_future example_remote example_now.
Proof.
  intros table Htable item Hitem.
  assert (Hall : forallb (λ row, created_at row <=? example_now)
                   (rows_of example_remote table) = true).
  { repeat (apply elem_of_cons in Htable as [-> | Htable]);
      [| | | apply elem_of_nil in Htable; destruct Htable];
      vm_compute; reflexivity. }
  rewrite forallb_forall in Hall. apply Z.leb_le, Hall.
  apply list_elem_of_In, Hitem.
Qed.

Lemma evolution_histograms_witness :
  ∃ ev log',
    getStatsEvolution fr_FR_UTC UTC_zone example_now
      (remote_client example_remote) []
      = (Fulfilled ev, log')
    ∧ bucket_total (contacts ev) = 3
    ∧ length (created_in_trailing_30_days example_now
                (rows_of example_remote "contact"))
      = 3%nat.
Proof.
  destruct (evolution_histograms fr_FR_UTC UTC_zone example_now
              example_remote [])
    as (ev & log' & Hrun & Hkinds).
  - reflexivity.
  - apply example_remote_none_from_the_future.
  - exists ev, log'. split; [exact Hrun |].
    destruct (Hkinds "contact" (contacts ev)) as [_ Htotal]; [left |].
    split; [| vm_compute; reflexivity].
    rewrite Htotal.
    + vm_compute. reflexivity.
    + intros t _ Hrej. exact Hrej.
    + intros [e He]. discriminate He.
Defined.

(** C3, as it was stated, fails in three ways.  A masked failure: the
    backend holds three contacts created in the window, every request is
    rejected, and the contacts histogram returned is empty.  An item
    dated after the call: the query has no upper bound, so a contact
    dated five days ahead gets a bucket although no contact lies in the
    trailing window.  A change of offset: in Europe/Paris, one week after
    the end of summer time, the boundary sent is thirty days and one hour
    before the call, so a contact thirty days and thirty minutes old is
    counted although it is older than thirty days. *)
Lemma evolution_total_counterexample :
  (∃ ev log',
     getStatsEvolution fr_FR_UTC UTC_zone example_now
       (remote_client example_offline) []
       = (Fulfilled ev, log')
     ∧ bucket_total (contacts ev)
       ≠ Z.of_nat
           (length (created_in_trailing_30_days example_now
                      (rows_of example_offline "contact"))))
  ∧ (∃ ev log',
       getStatsEvolution fr_FR_UTC UTC_zone example_now
         (remote_client example_postdated) []
         = (Fulfilled ev, log')
       ∧ contacts ev !! "07/11/2026" = Some 1
       ∧ created_in_trailing_30_days example_now
           (rows_of example_postdated "contact") = []
       ∧ bucket_total (contacts ev)
         ≠ Z.of_nat
             (length (created_in_trailing_30_days example_now
                        (rows_of example_postdated "contact"))))
  ∧ (∃ ev log',
       getStatsEvolution (fr_FR_in example_paris) example_paris example_now
         (remote_client example_just_older) []
         = (Fulfilled ev, log')
       ∧ thirtyDaysAgo example_paris example_now
         = example_now - 30 * 86400000 - 3600000
       ∧ contacts ev !! "03/10/2026" = Some 1
       ∧ created_in_trailing_30_days example_now
           (rows_of example_just_older "contact") = []
       ∧ bucket_total (contacts ev)
         ≠ Z.of_nat
             (length (created_in_trailing_30_days example_now
                        (rows_of example_just_older "contact")))).
Proof.
  split; [| split].
  - eexists _, _. split; [vm_compute; reflexivity |].
    vm_compute. discriminate.
  - eexists _, _. split; [vm_compute; reflexivity |].
    repeat split; try (vm_compute; reflexivity). vm_compute. discriminate.
  - eexists _, _. split; [vm_compute; reflexivity |].
    repeat split; try (vm_compute; reflexivity). vm_compute. discriminate.
Qed.

(* ===================================================================== *)
(** * More on the statistics service *)
(* ===================================================================== *)

Lemma count_query_of_promise (supabase : Client) (p : Promise Response) :
  p ∈ [ supabase (select_count_head ["id"] (from "contact"));
        supabase (select_count_head ["id"] (from "projects"));
        supabase (select_count_head ["id"] (from "blog_posts"));
        supabase (select_count_head ["id"] (from "services"));
        supabase (select_count_head ["id"] (from "sectors"));
        supabase (select_count_head ["id"] (from "navigation"));
        supabase (select_count_head ["id"] (from "skills"));
        supabase (select_count_head ["id"] (from "chatbot_knowledge")) ] →
  ∃ k, p = supabase (count_query k).
Proof.
  intros Hin.
  repeat (apply elem_of_cons in Hin as [-> | Hin]);
    [ exists Contact | exists Project | exists BlogPost | exists Service
    | exists SectorKind | exists NavigationItem | exists Skill
    | exists ChatbotKnowledge | apply elem_of_nil in Hin; destruct Hin ];
    reflexivity.
Qed.

(** X1. [getDashboardStats] is all or nothing.  When none of the eight
    counting queries rejects it returns its record and logs nothing; when
    one rejects it returns no record at all: it writes one line to the
    console and rejects with the reason of a query that rejected. *)
Theorem getDashboardStats_all_or_nothing (supabase : Client) (log : Console) :
  ((∀ k, ¬ rejects (supabase (count_query k))) →
   ∃ stats, getDashboardStats supabase log = (Fulfilled stats, log))
  ∧ ((∃ k, rejects (supabase (count_query k))) →
     ∃ k e,
       outcome (supabase (count_query k)) = Rejected e
       ∧ getDashboardStats supabase log =
         (Rejected e,
          log ++ [("Erreur lors de la récupération des statistiques:", e)])).
Proof.
  split.
  - intros Hnone.
    set (rs := λ k, match outcome (supabase (count_query k)) with
                    | Fulfilled r => r
                    | Rejected _ => failed TypeError
                    end).
    eexists. apply (getDashboardStats_fulfilled supabase log rs).
    intros k. subst rs. cbn beta. specialize (Hnone k). unfold rejects in Hnone.
    destruct (outcome (supabase (count_query k))); [reflexivity |].
    destruct (Hnone I).
  - intros [k0 Hrej]. unfold getDashboardStats, try_catch, bind, await.
    match goal with
    | |- context [outcome (Promise_all ?ps)] =>
        destruct (Promise_all_cases ps) as
          [(vs & _ & Hall) | (p & e & Hin & Hp & Hout)]
    end.
    + exfalso.
      assert (Hin : supabase (count_query k0) ∈
        [ supabase (count_query Contact); supabase (count_query Project);
          supabase (count_query BlogPost); supabase (count_query Service);
          supabase (count_query SectorKind);
          supabase (count_query NavigationItem);
          supabase (count_query Skill);
          supabase (count_query ChatbotKnowledge) ])
        by (destruct k0; set_solver).
      apply list_elem_of_lookup in Hin as [i Hi].
      destruct (Forall2_lookup_l _ _ _ _ _ Hall Hi) as (v & _ & Hv).
      unfold rejects in Hrej. rewrite Hv in Hrej. exact Hrej.
    + rewrite Hout. apply count_query_of_promise in Hin as [k ->].
      exists k, e. split; [exact Hp | reflexivity].
Qed.

Section GroupByDay.

Variable toLocaleDateString : Z → string.

(** X2. [groupByDay] keeps one bucket per day that has items, and no
    other: the bucket of a day is absent exactly when no item falls on
    that day, and otherwise holds the number of items of that day, which
    is at least one. *)
Theorem groupByDay_counts_each_day (data : list Row) (day : string) :
  (groupByDay toLocaleDateString data !! day = None
   ↔ ∀ item, item ∈ data → toLocaleDateString (created_at item) ≠ day)
  ∧ (∀ n, groupByDay toLocaleDateString data !! day = Some n
          ↔ n = Z.of_nat (length (on_day toLocaleDateString day data))
            ∧ 1 ≤ n).
Proof.
  rewrite lookup_groupByDay. split.
  - destruct (on_day toLocaleDateString day data) as [| item items] eqn:Hday;
      cbn [length].
    + split; [| reflexivity]. intros _ item Hin Hkey.
      assert (Hitem : item ∈ on_day toLocaleDateString day data)
        by (apply list_elem_of_filter; auto).
      rewrite Hday in Hitem. apply elem_of_nil in Hitem. exact Hitem.
    + split; [discriminate |]. intros Hnone. exfalso.
      assert (Hitem : item ∈ on_day toLocaleDateString day data)
        by (rewrite Hday; left).
      apply list_elem_of_filter in Hitem as [Hkey Hin].
      exact (Hnone item Hin Hkey).
  - intros n.
    destruct (length (on_day toLocaleDateString day data)) as [| m].
    + split; [discriminate | intros [-> Hn]; simpl in Hn; lia].
    + split; [intros [= <-]; split; [reflexivity | lia] |].
      intros [-> _]. reflexivity.
Qed.

Lemma size_count_item (grouped : gmap string Z) (item : Row) :
  (size (count_item toLocaleDateString grouped item) ≤ S (size grouped))%nat.
Proof.
  unfold count_item. cbn zeta. rewrite map_size_insert.
  destruct (grouped !! toLocaleDateString (created_at item)); unfold id; lia.
Qed.

Lemma size_foldl_count_item (data : list Row) (grouped : gmap string Z) :
  (size (foldl (count_item toLocaleDateString) grouped data)
   ≤ size grouped + length data)%nat.
Proof.
  revert grouped. induction data as [| item data IH]; intros grouped;
    cbn [foldl length]; [lia |].
  pose proof (IH (count_item toLocaleDateString grouped item)).
  pose proof (size_count_item grouped item). lia.
Qed.

(** X3. Whatever the rows, [groupByDay] loses and invents nothing: its
    bucket values sum to the number of rows grouped, and there are at
    most as many buckets as rows. *)
Theorem groupByDay_accounts_for_every_item (data : list Row) :
  bucket_total (groupByDay toLocaleDateString data) = Z.of_nat (length data)
  ∧ (size (groupByDay toLocaleDateString data) ≤ length data)%nat.
Proof.
  split; [apply bucket_total_groupByDay |].
  unfold groupByDay.
  pose proof (size_foldl_count_item data ∅) as H.
  rewrite map_size_empty in H. exact H.
Qed.


(** X5. Grouping two batches of rows together adds up, day by day, the
    histograms of the two batches. *)
Theorem groupByDay_app (data1 data2 : list Row) :
  groupByDay toLocaleDateString (data1 ++ data2) =
  union_with (λ n1 n2, Some (n1 + n2))
    (groupByDay toLocaleDateString data1)
    (groupByDay toLocaleDateString data2).
Proof.
  apply map_eq. intros day.
  rewrite lookup_union_with, !lookup_groupByDay.
  unfold on_day. rewrite filter_app, length_app.
  destruct (length (filter _ data1)) as [| n1],
           (length (filter _ data2)) as [| n2];
    cbn [Nat.add union_with option_union_with]; try reflexivity;
    apply (f_equal Some); lia.
Qed.

End GroupByDay.


(** X6. [getStatsEvolution] never reads the [error] field of a response:
    with that field cleared in every response, it returns the same maps
    and writes the same console. *)
Theorem getStatsEvolution_ignores_result_errors
    (toLocaleDateString : Z → string) (zone : TimeZone) (now : Z) (supabase : Client)
    (log : Console) :
  getStatsEvolution toLocaleDateString zone now (without_errors supabase) log
  = getStatsEvolution toLocaleDateString zone now supabase log.
Proof.
  unfold getStatsEvolution, try_catch, bind, await.
  pose proof (Promise_all_without_errors supabase
    [ gte "created_at" (thirtyDaysAgo zone now)
        (select ["created_at"] (from "contact"));
      gte "created_at" (thirtyDaysAgo zone now)
        (select ["created_at"] (from "projects"));
      gte "created_at" (thirtyDaysAgo zone now)
        (select ["created_at"] (from "blog_posts")) ]) as Hall.
  cbn [fmap list_fmap] in Hall. rewrite Hall. clear Hall.
  match goal with
  | |- context [outcome (Promise_all ?ps)] =>
      destruct (outcome (Promise_all ps)) as [vs | e]
  end; [| reflexivity].
  do 4 (destruct vs as [| ? vs]; [reflexivity |]). reflexivity.
Qed.

(** X7. A query of the evolution batch that resolves without rows (an
    error result) does not fail the batch.  When the three queries
    resolve, nothing is written to the console, the histogram of a kind
    whose response has no rows is empty, and the histogram of every other
    kind is still built from its own rows. *)
Theorem getStatsEvolution_partial_failure
    (toLocaleDateString : Z → string) (zone : TimeZone) (now : Z) (supabase : Client)
    (log : Console) (r1 r2 r3 : Response) :
  outcome (supabase (evolution_query zone now "contact")) = Fulfilled r1 →
  outcome (supabase (evolution_query zone now "projects")) = Fulfilled r2 →
  outcome (supabase (evolution_query zone now "blog_posts")) = Fulfilled r3 →
  ∃ ev,
    getStatsEvolution toLocaleDateString zone now supabase log = (Fulfilled ev, log)
    ∧ ∀ r hist,
        (r, hist) ∈ [(r1, contacts ev); (r2, projects ev); (r3, blogPosts ev)] →
        (data r = None → hist = ∅)
        ∧ (∀ rows, data r = Some rows →
                   hist = groupByDay toLocaleDateString rows).
Proof.
  intros H1 H2 H3.
  destruct (getStatsEvolution_cases toLocaleDateString zone now supabase log)
    as [(r1' & r2' & r3' & H1' & H2' & H3' & Hrun)
       | (table & e & Hin & Hrej & _)].
  - assert (r1' = r1) by congruence. assert (r2' = r2) by congruence.
    assert (r3' = r3) by congruence. subst.
    eexists. split; [exact Hrun |].
    intros r hist Hin. cbn [contacts projects blogPosts] in Hin.
    repeat (apply elem_of_cons in Hin as [[= -> ->] | Hin]);
      [| | | apply elem_of_nil in Hin; destruct Hin];
      (split; [intros -> | intros rows ->]; reflexivity).
  - exfalso.
    repeat (apply elem_of_cons in Hin as [-> | Hin]);
      [| | | apply elem_of_nil in Hin; destruct Hin]; congruence.
Qed.

Lemma getStatsEvolution_partial_failure_witness :
  ∃ ev,
    getStatsEvolution fr_FR_UTC UTC_zone example_now
      (remote_client example_contacts_down) []
      = (Fulfilled ev, [])
    ∧ contacts ev = ∅
    ∧ projects ev = groupByDay fr_FR_UTC
                      [project ["created_at"]
                         (example_row (example_now - 2 * msPerDay) "p")].
Proof.
  destruct (getStatsEvolution_partial_failure fr_FR_UTC UTC_zone example_now
              (remote_client example_contacts_down) []
              (failed permission_denied)
              (run_query example_tables
                 (evolution_query UTC_zone example_now "projects"))
              (run_query example_tables
                 (evolution_query UTC_zone example_now "blog_posts"))
              eq_refl eq_refl eq_refl)
    as (ev & Hrun & Hkinds).
  exists ev. split; [exact Hrun |]. split.
  - apply (Hkinds (failed permission_denied)); [left | reflexivity].
  - eapply (Hkinds _ (projects ev)); [right; left |].
    vm_compute. reflexivity.
Defined.

(** X8. The three recent-items readers are pass-through readers with a
    silent success: when the query resolves without error, the rows are
    returned exactly as they came (no rows at all counting as the empty
    list) and the console is left as it was; when the query fails, one
    line is written to the console, the reader's own message with the
    very error of the failure. *)
Theorem recent_readers_pass_through
    (supabase : Client) (limit_arg : option Z) (log : Console) :
  ∀ reader table cols msg,
    (reader, table, cols, msg) ∈
      [ (getRecentContacts, "contact", contact_columns,
         "Erreur lors de la récupération des contacts récents:");
        (getRecentProjects, "projects", project_columns,
         "Erreur lors de la récupération des projets récents:");
        (getRecentBlogPosts, "blog_posts", blog_post_columns,
         "Erreur lors de la récupération des articles récents:") ] →
    match outcome (supabase (recent_query table cols
                               (default_param 5 limit_arg))) with
    | Fulfilled r =>
        match error r with
        | None =>
            reader supabase limit_arg log = (Fulfilled (or_empty (data r)), log)
        | Some e =>
            reader supabase limit_arg log = (Fulfilled [], log ++ [(msg, e)])
        end
    | Rejected e =>
        reader supabase limit_arg log = (Fulfilled [], log ++ [(msg, e)])
    end.
Proof.
  intros reader table cols msg Hin.
  repeat (apply elem_of_cons in Hin as [[= -> -> -> ->] | Hin]);
    [| | | apply elem_of_nil in Hin; destruct Hin];
    run_reader;
    match goal with
    | |- context [outcome ?p] => destruct (outcome p) as [r | e]
    end;
    try destruct (error r); reflexivity.
Qed.

Lemma recent_readers_pass_through_witness :
  getRecentProjects (remote_client example_offline) (Some 3) []
  = (Fulfilled [],
     [("Erreur lors de la récupération des projets récents:", network_down)]).
Proof.
  apply (recent_readers_pass_through (remote_client example_offline) (Some 3) []
           getRecentProjects "projects" project_columns
           "Erreur lors de la récupération des projets récents:").
  right. left.
Defined.

(* ===================================================================== *)
(** * The query hooks *)
(* ===================================================================== *)




(* ===================================================================== *)
(** * More on the Sectors page *)
(* ===================================================================== *)

Section SectorsFlow.

Import Sectors SectorsView.

Ltac run_page :=
  unfold step, handler, run, handleSubmit, handleConfirmDelete, handleCreate,
    handleEdit, handleDeleteClick, handleCloseModal, handleCloseDeleteModal,
    submitted, mutateAsync, toast_success, toast_error,
    Sectors.console_error, setIsModalOpen, setIsDeleteModalOpen,
    setEditingSector, setDeletingSector, set_state, emit, modify, try_catch,
    await, ret, bind in *;
  simpl in *.

Ltac case_outcome :=
  repeat (match goal with
          | |- context [match editingSector ?st with _ => _ end] =>
              destruct (editingSector st) eqn:?
          | |- context [match deletingSector ?st with _ => _ end] =>
              destruct (deletingSector st) eqn:?
          | |- context [outcome ?p] => destruct (outcome p) as [[] | ?] eqn:?
          | |- context [strict_eq_string ?c ?s] =>
              destruct (strict_eq_string c s) eqn:?
          end; simpl in *).

#[local] Set Warnings "-clear-no-such-hyp".

(** Every handler keeps the flags and the targets in agreement. *)
Lemma step_consistent (st : PageState) (ev : Mutations * Action) :
  consistent st → consistent (step st ev).
Proof.
  destruct ev as [hooks a]. unfold consistent. intros [Hedit Hdelete].
  destruct a; run_page; case_outcome;
    repeat match goal with
      | Heq : editingSector st = _ |- _ => rewrite Heq in *; clear Heq
      | Heq : deletingSector st = _ |- _ => rewrite Heq in *; clear Heq
      end;
    unfold is_Some in *; naive_solver.
Qed.

Lemma initial_consistent : consistent initial.
Proof.
  unfold consistent, initial. simpl. split.
  - intros [s Hs]. discriminate Hs.
  - split; [discriminate | intros [s Hs]; discriminate Hs].
Qed.

Lemma after_consistent (evs : list (Mutations * Action)) :
  consistent (after evs).
Proof.
  unfold after. induction evs as [| ev evs IH] using rev_ind.
  - apply initial_consistent.
  - rewrite foldl_snoc. apply step_consistent, IH.
Qed.

(** X11. Confirming a delete when no target is set does nothing at all:
    no backend call, no notification, no console line, and the state is
    left as it was. *)
Theorem confirm_delete_without_target
    (hooks : Mutations) (render : PageState) :
  deletingSector render = None →
  run render (handleConfirmDelete hooks render)
  = (Fulfilled (), {| state := render; trace := [] |}).
Proof.
  intros Hnone. unfold run, handleConfirmDelete. rewrite Hnone. reflexivity.
Qed.

Lemma confirm_delete_without_target_witness :
  run example_creating
    (handleConfirmDelete (example_hooks_failing network_down) example_creating)
  = (Fulfilled (), {| state := example_creating; trace := [] |}).
Proof.
  apply (confirm_delete_without_target (example_hooks_failing network_down)
           example_creating).
  reflexivity.
Defined.

(** X12. In edit mode, whatever the backend answers, [handleSubmit] makes
    exactly one mutation call, an update, and never a create or a delete.
    The update is keyed by the identifier of the sector being edited, not
    by the identifier typed in the form, while the document sent carries
    the form's identifier. *)
Theorem edit_submits_update_keyed_by_edited_id
    (hooks : Mutations) (render : PageState) (editing : Sector.t)
    (formData : SectorFormData.t) :
  editingSector render = Some editing →
  ∃ variables,
    requests (trace (run render (handleSubmit hooks render formData)).2)
      = [UpdateCalled variables]
    ∧ upd_id variables = Sector.id editing
    ∧ upd_data variables = build_sectorData formData
    ∧ Sector.id (upd_data variables) = SectorFormData.id formData.
Proof.
  intros Hedit.
  exists {| upd_id := Sector.id editing;
            upd_data := build_sectorData formData |}.
  split; [| auto]. run_page. rewrite Hedit. simpl. case_outcome; reflexivity.
Qed.

Lemma edit_submits_update_keyed_by_edited_id_witness :
  ∃ variables,
    requests (trace (run example_editing
                       (handleSubmit example_hooks_ok example_editing
                          example_renamed_form)).2)
      = [UpdateCalled variables]
    ∧ upd_id variables = JStr "fintech"
    ∧ upd_data variables = build_sectorData example_renamed_form
    ∧ Sector.id (upd_data variables) = JStr "finance".
Proof.
  apply (edit_submits_update_keyed_by_edited_id example_hooks_ok
           example_editing (build_sectorData example_form)
           example_renamed_form).
  reflexivity.
Defined.

(** X13. The wording of the notification follows the operation: a
    successful submit shows the create-success message in create mode and
    the update-success message in edit mode, and an edit-mode submit that
    fails with a code other than ["23505"] shows the update-failure
    message; each time it is the only notification. *)
Theorem submit_wording_follows_mode
    (hooks : Mutations) (render : PageState) (formData : SectorFormData.t) :
  let shown :=
    notifications (trace (run render (handleSubmit hooks render formData)).2) in
  (outcome (submitted hooks render formData) = Fulfilled () →
   shown = [ToastSuccess
              (match editingSector render with
               | Some _ => "Secteur mis à jour avec succès !"
               | None => "Secteur créé avec succès !"
               end)])
  ∧ (∀ e, outcome (submitted hooks render formData) = Rejected e →
          code e ≠ JStr "23505" →
          is_Some (editingSector render) →
          shown = [ToastError "Erreur lors de la mise à jour du secteur."]).
Proof.
  intros shown. subst shown. split.
  - intros Hok. run_page.
    destruct (editingSector render); simpl in *; rewrite Hok; reflexivity.
  - intros e Hrej Hcode [editing Hedit]. run_page. rewrite Hedit in *.
    simpl in *. rewrite Hrej. simpl.
    apply strict_eq_string_false in Hcode. rewrite Hcode. reflexivity.
Qed.

(** X14. Nesting the flattened form loses nothing: two forms that differ
    in some field give documents that differ, so the form can be read
    back from the document built from it. *)
Theorem build_sectorData_keeps_forms_apart (f1 f2 : SectorFormData.t) :
  f1 ≠ f2 → build_sectorData f1 ≠ build_sectorData f2.
Proof.
  intros Hdiff Hsame. apply Hdiff. clear Hdiff.
  destruct f1, f2. unfold build_sectorData, build_content_modal in Hsame.
  simpl in Hsame. inversion Hsame. reflexivity.
Qed.

Lemma build_sectorData_keeps_forms_apart_witness :
  build_sectorData example_form ≠ build_sectorData example_renamed_form.
Proof.
  apply (build_sectorData_keeps_forms_apart example_form example_renamed_form).
  discriminate.
Defined.

(** X15. After any sequence of actions handled one after the other from
    the first render, whatever the backend answered along the way, the
    flags and the targets agree: a sector is being edited only while the
    create/edit modal is open, and the delete confirmation is flagged
    open exactly when a delete target is set. *)
Theorem flags_agree_with_targets (evs : list (Mutations * Action)) :
  (is_Some (editingSector (after evs)) → isModalOpen (after evs) = true)
  ∧ (isDeleteModalOpen (after evs) = true
     ↔ is_Some (deletingSector (after evs))).
Proof. exact (after_consistent evs). Qed.

(** X16. The two modals do not interfere, and only the two asynchronous
    handlers reach outside.  An action of the create/edit modal leaves
    the delete flag and the delete target as they were; an action of the
    delete confirmation leaves the modal flag and the edit target as they
    were; and every other handler than submit and confirm-delete makes no
    backend call, shows no notification and writes nothing to the
    console. *)
Theorem modals_do_not_interfere
    (hooks : Mutations) (st : PageState) (a : Action) :
  (edit_side a = true →
   isDeleteModalOpen (step st (hooks, a)) = isDeleteModalOpen st
   ∧ deletingSector (step st (hooks, a)) = deletingSector st)
  ∧ (edit_side a = false →
     isModalOpen (step st (hooks, a)) = isModalOpen st
     ∧ editingSector (step st (hooks, a)) = editingSector st)
  ∧ (asynchronous a = false →
     trace (run st (handler hooks st a)).2 = []).
Proof.
  destruct a; simpl; (split; [| split]); intros Hside;
    try discriminate Hside; run_page; case_outcome; auto.
Qed.

(** X17. The last click decides the call, whatever was edited or targeted
    before.  After a click on a card's edit button, a submit updates that
    sector; after a click on the create button, a submit creates, even if
    a sector was being edited; after a click on a card's delete button,
    confirming deletes that sector.  In each case it is the only call. *)
Theorem last_click_decides_the_call
    (hooks hooks' : Mutations) (st : PageState) (sector : Sector.t)
    (formData : SectorFormData.t) :
  let edited := step st (hooks, ClickEdit sector) in
  let fresh := step st (hooks, ClickCreate) in
  let targeted := step st (hooks, ClickDelete sector) in
  requests (trace (run edited (handleSubmit hooks' edited formData)).2)
    = [UpdateCalled {| upd_id := Sector.id sector;
                       upd_data := build_sectorData formData |}]
  ∧ requests (trace (run fresh (handleSubmit hooks' fresh formData)).2)
    = [CreateCalled (build_sectorData formData)]
  ∧ requests (trace (run targeted (handleConfirmDelete hooks' targeted)).2)
    = [DeleteCalled (Sector.id sector)].
Proof.
  cbv zeta. repeat split; run_page; case_outcome; reflexivity.
Qed.

(** X18. A success closes like a cancel: the state left by a successful
    submit is the state left by closing the modal, and the state left by
    a successful delete is the state left by closing the confirmation. *)
Theorem success_closes_like_cancel
    (hooks : Mutations) (st : PageState) (formData : SectorFormData.t) :
  (outcome (submitted hooks st formData) = Fulfilled () →
   step st (hooks, SubmitForm formData) = step st (hooks, CloseModal))
  ∧ (∀ deleting,
       deletingSector st = Some deleting →
       outcome (deleteMutation hooks (Sector.id deleting)) = Fulfilled () →
       step st (hooks, ConfirmDelete) = step st (hooks, CloseDeleteModal)).
Proof.
  split.
  - intros Hok. run_page.
    destruct (editingSector st); simpl in *; rewrite Hok; reflexivity.
  - intros deleting Htarget Hok. run_page. rewrite Htarget. simpl.
    rewrite Hok. reflexivity.
Qed.

(** X19. The header and the listing agree.  When the page proper is
    rendered, the header shows the number of sectors loaded (0 when there
    is no list), with the plural mark exactly from two sectors on; the
    empty state is shown exactly when that number is 0; otherwise the
    grid has one card per sector, in the order of the list, each keyed by
    the identifier of its sector. *)
Theorem header_count_matches_listing
    (hooks : Mutations) (q : SectorsQuery) (pending : Pending)
    (st : PageState) (page : PageProps) :
  render hooks q pending st = PageView page →
  subtitle page =
    String.append "Gérez les secteurs d'activité de votre portfolio ("
      (String.append (pretty (sectors_length q))
         (if decide (2 ≤ sectors_length q)%nat then " secteurs)"
          else " secteur)"))
  ∧ match listing page with
    | EmptyState _ => sectors_length q = 0%nat
    | Grid cards =>
        sectors_length q ≠ 0%nat
        ∧ length cards = sectors_length q
        ∧ sectors q = Some (card_sector <$> cards)
        ∧ ∀ c, c ∈ cards → card_key c = Sector.id (card_sector c)
    end.
Proof.
  unfold render. destruct (isLoading q); [discriminate |].
  destruct (load_error q); [discriminate |]. intros [= <-].
  cbn [subtitle listing]. split.
  - destruct (Nat.ltb_spec 1 (sectors_length q));
      destruct (decide (2 ≤ sectors_length q)%nat); try lia; reflexivity.
  - unfold sectors_length. destruct (sectors q) as [l |]; [| reflexivity].
    destruct (Nat.eqb_spec (length l) 0) as [Hlen | Hlen]; [exact Hlen |].
    split; [exact Hlen |]. split; [apply length_fmap |]. split.
    + f_equal. rewrite <- list_fmap_compose. symmetry. apply list_fmap_id.
    + intros c Hc. apply list_elem_of_fmap in Hc as (s & -> & _). reflexivity.
Qed.

Lemma header_count_matches_listing_witness :
  ∃ page,
    render example_hooks_ok example_loaded example_idle initial = PageView page
    ∧ subtitle page
      = "Gérez les secteurs d'activité de votre portfolio (2 secteurs)"
    ∧ ∃ cards, listing page = Grid cards ∧ length cards = 2%nat.
Proof.
  eexists. split; [reflexivity |].
  destruct (header_count_matches_listing example_hooks_ok example_loaded
              example_idle initial _ eq_refl) as [Hsub Hlist].
  split; [exact Hsub |].
  eexists. split; [reflexivity |]. exact (proj1 (proj2 Hlist)).
Defined.

(** X20. The buttons of a card act on the sector of that card.  On the
    page proper, the card at a position shows the sector at that position
    of the list; after its edit button, the next render mounts the
    create/edit modal on that sector; after its delete button, the next
    render mounts the confirmation, whose message quotes the title of
    that sector. *)
Theorem card_buttons_act_on_their_sector
    (hooks : Mutations) (q : SectorsQuery) (pending : Pending)
    (st : PageState) (page : PageProps) (cards : list SectorCardProps)
    (i : nat) (c : SectorCardProps) :
  render hooks q pending st = PageView page →
  listing page = Grid cards →
  cards !! i = Some c →
  (∃ l, sectors q = Some l ∧ l !! i = Some (card_sector c))
  ∧ (∃ page' m,
       render hooks q pending (state (run st (card_onEdit c)).2)
         = PageView page'
       ∧ sectorModal page' = Some m
       ∧ modal_sector m = Some (card_sector c))
  ∧ (∃ page' d,
       render hooks q pending (state (run st (card_onDelete c)).2)
         = PageView page'
       ∧ deleteConfirmModal page' = Some d
       ∧ confirm_message d =
         String.append "Êtes-vous sûr de vouloir supprimer le secteur "
           (String.append quote
              (String.append (js_String (Sector.title (card_sector c)))
                 (String.append quote " ? Cette action est irréversible.")))).
Proof.
  unfold render. destruct (isLoading q); [discriminate |].
  destruct (load_error q); [discriminate |]. intros [= <-].
  cbn [listing]. destruct (sectors q) as [l |]; [| discriminate].
  destruct (length l =? 0)%nat; [discriminate |]. intros [= <-] Hc.
  apply list_lookup_fmap_Some in Hc as (s & -> & Hs).
  cbn [card_sector card_onEdit card_onDelete].
  split; [eauto |]. split.
  - eexists _, _. split; [reflexivity |]. run_page. split; reflexivity.
  - eexists _, _. split; [reflexivity |]. run_page. split; reflexivity.
Qed.

Lemma card_buttons_act_on_their_sector_witness :
  ∃ page' m,
    render example_hooks_ok example_loaded example_idle
      (state (run initial (handleEdit example_other_sector)).2)
      = PageView page'
    ∧ sectorModal page' = Some m
    ∧ modal_sector m = Some example_other_sector.
Proof.
  eapply (card_buttons_act_on_their_sector example_hooks_ok example_loaded
            example_idle initial _ _ 1%nat
            {| card_key := Sector.id example_other_sector;
               card_sector := example_other_sector;
               card_onEdit := handleEdit example_other_sector;
               card_onDelete := handleDeleteClick example_other_sector |});
    reflexivity.
Defined.

(** X21. What is mounted follows the flags.  After any sequence of
    actions handled one after the other from the first render, on the
    page proper: the create/edit modal is mounted exactly when its flag
    is set, and then on the sector being edited; the delete confirmation
    is mounted exactly when its flag is set (the additional test of the
    target never hides it); and when the create/edit modal is not
    mounted no sector is left being edited. *)
Theorem mounted_modals_follow_flags
    (hooks : Mutations) (q : SectorsQuery) (pending : Pending)
    (evs : list (Mutations * Action)) (page : PageProps) :
  render hooks q pending (after evs) = PageView page →
  (is_Some (sectorModal page) ↔ isModalOpen (after evs) = true)
  ∧ (∀ m, sectorModal page = Some m →
          modal_sector m = editingSector (after evs))
  ∧ (is_Some (deleteConfirmModal page)
     ↔ isDeleteModalOpen (after evs) = true)
  ∧ (sectorModal page = None → editingSector (after evs) = None).
Proof.
  destruct (after_consistent evs) as [Hedit Hdelete].
  unfold render. destruct (isLoading q); [discriminate |].
  destruct (load_error q); [discriminate |]. intros [= <-].
  cbn [sectorModal deleteConfirmModal].
  destruct (isModalOpen (after evs)) eqn:Hopen,
           (isDeleteModalOpen (after evs)) eqn:Hconfirm,
           (deletingSector (after evs)) as [deleting |] eqn:Htarget,
           (editingSector (after evs)) as [editing |] eqn:Hediting;
    unfold is_Some in *; naive_solver.
Qed.

Lemma mounted_modals_follow_flags_witness :
  ∃ page,
    render example_hooks_ok example_loaded example_idle
      (after [(example_hooks_ok, ClickDelete example_sector);
              (example_hooks_failing network_down, ConfirmDelete)])
      = PageView page
    ∧ is_Some (deleteConfirmModal page).
Proof.
  eexists. split; [reflexivity |].
  apply (mounted_modals_follow_flags example_hooks_ok example_loaded
           example_idle
           [(example_hooks_ok, ClickDelete example_sector);
            (example_hooks_failing network_down, ConfirmDelete)] _ eq_refl).
  reflexivity.
Defined.

End SectorsFlow.
